(** * The Firebird dialect of SQLAlchemy

    A shallow embedding of [lib/sqlalchemy/dialects/firebird/base.py]:
    the reserved words and the identifier preparer, the boolean type's
    processors, the statement compiler's pre-column and RETURNING rules,
    the dialect's version detection and name folding, and the catalog
    reflection of columns, sequences and foreign keys.

    Python strings are 8-bit [string]s, [None] is the [None] of [option]
    (or [PyNone] where a value of any type may flow), dictionaries are
    [gmap]s, and code that may fail an assertion runs in a small monad
    that also carries the warnings it emits. *)

From Stdlib Require Import ZArith String Ascii List Bool Lia DecimalString.
From stdpp Require Import base option gmap strings list.

Open Scope string_scope.
Open Scope list_scope.
Open Scope stdpp_scope.

(** ** Python primitives *)

Module Py.

(** [str.upper] and [str.lower] on 8-bit strings fold the ASCII letters
    and leave every other byte alone. *)
Definition upper_char (c : ascii) : ascii :=
  let n := N_of_ascii c in
  if ((97 <=? n) && (n <=? 122))%N then ascii_of_N (n - 32) else c.

Definition lower_char (c : ascii) : ascii :=
  let n := N_of_ascii c in
  if ((65 <=? n) && (n <=? 90))%N then ascii_of_N (n + 32) else c.

Fixpoint upper (s : string) : string :=
  match s with
  | EmptyString => EmptyString
  | String c s' => String (upper_char c) (upper s')
  end.

Fixpoint lower (s : string) : string :=
  match s with
  | EmptyString => EmptyString
  | String c s' => String (lower_char c) (lower s')
  end.

(** The bytes [str.rstrip()] removes: tab, line feed, vertical tab, form
    feed, carriage return and space. *)
Definition is_space (c : ascii) : bool :=
  let n := N_of_ascii c in
  (((9 <=? n) && (n <=? 13)) || (n =? 32))%N.

(** [s.rstrip()]: [s] without its trailing white space. *)
Fixpoint rstrip (s : string) : string :=
  match s with
  | EmptyString => EmptyString
  | String c s' =>
      match rstrip s' with
      | EmptyString => if is_space c then EmptyString else String c EmptyString
      | r => String c r
      end
  end.

(** [s.startswith(p)]. *)
Fixpoint startswith (p s : string) : bool :=
  match p, s with
  | EmptyString, _ => true
  | String _ _, EmptyString => false
  | String a p', String b s' => Ascii.eqb a b && startswith p' s'
  end.

(** [s[n:]] for a non-negative [n]. *)
Fixpoint slice_from (n : nat) (s : string) : string :=
  match n, s with
  | O, _ => s
  | S _, EmptyString => EmptyString
  | S n', String _ s' => slice_from n' s'
  end.

(** [sep.join(l)]. *)
Fixpoint join (sep : string) (l : list string) : string :=
  match l with
  | [] => ""
  | [x] => x
  | x :: l' => x +:+ sep +:+ join sep l'
  end.

(** ["%d" % n]. *)
Definition format_d (n : Z) : string := NilZero.string_of_int (Z.to_int n).

(** The values a bound parameter or a fetched cell may hold. *)
#[local] Unset Elimination Schemes.
Inductive value : Type :=
  | PyNone
  | PyBool (b : bool)
  | PyInt (n : Z)
  | PyStr (s : string)
  | PyList (l : list value).
#[local] Set Elimination Schemes.

(** Truth value testing ([bool(v)]). *)
Definition truthy (v : value) : bool :=
  match v with
  | PyNone => false
  | PyBool b => b
  | PyInt n => negb (n =? 0)%Z
  | PyStr s => negb (String.eqb s "")
  | PyList l => match l with [] => false | _ :: _ => true end
  end.

(** [a and b], [a or b]: the operand that decides the result. *)
Definition py_and (a b : value) : value := if truthy a then b else a.
Definition py_or (a b : value) : value := if truthy a then a else b.

(** Tuples of integers compare lexicographically, a proper prefix being
    smaller: [a > b]. *)
Fixpoint tuple_gt (a b : list Z) : bool :=
  match a, b with
  | [], _ => false
  | _ :: _, [] => true
  | x :: a', y :: b' => if (x =? y)%Z then tuple_gt a' b' else (y <? x)%Z
  end.

End Py.

(** ** Reserved words *)

(** The set is kept as the list it is built from: membership is all
    that is asked of it, and the one word listed twice changes nothing. *)
Definition RESERVED_WORDS : list string := [
    "action"; "active"; "add"; "admin"; "after"; "all"; "alter"; "and"; "any";
    "as"; "asc"; "ascending"; "at"; "auto"; "autoddl"; "avg"; "based";
    "basename"; "base_name"; "before"; "begin"; "between"; "bigint"; "blob";
    "blobedit"; "buffer"; "by"; "cache"; "cascade"; "case"; "cast"; "char";
    "character"; "character_length"; "char_length"; "check";
    "check_point_len"; "check_point_length"; "close"; "collate"; "collation";
    "column"; "commit"; "committed"; "compiletime"; "computed"; "conditional";
    "connect"; "constraint"; "containing"; "continue"; "count"; "create";
    "cstring"; "current"; "current_connection"; "current_date";
    "current_role"; "current_time"; "current_timestamp";
    "current_transaction"; "current_user"; "cursor"; "database"; "date";
    "day"; "db_key"; "debug"; "dec"; "decimal"; "declare"; "default";
    "delete"; "desc"; "descending"; "describe"; "descriptor"; "disconnect";
    "display"; "distinct"; "do"; "domain"; "double"; "drop"; "echo"; "edit";
    "else"; "end"; "entry_point"; "escape"; "event"; "exception"; "execute";
    "exists"; "exit"; "extern"; "external"; "extract"; "fetch"; "file";
    "filter"; "float"; "for"; "foreign"; "found"; "free_it"; "from"; "full";
    "function"; "gdscode"; "generator"; "gen_id"; "global"; "goto"; "grant";
    "group"; "group_commit_"; "group_commit_wait"; "having"; "help"; "hour";
    "if"; "immediate"; "in"; "inactive"; "index"; "indicator"; "init";
    "inner"; "input"; "input_type"; "insert"; "int"; "integer"; "into"; "is";
    "isolation"; "isql"; "join"; "key"; "lc_messages"; "lc_type"; "left";
    "length"; "lev"; "level"; "like"; "logfile"; "log_buffer_size";
    "log_buf_size"; "long"; "manual"; "max"; "maximum"; "maximum_segment";
    "max_segment"; "merge"; "message"; "min"; "minimum"; "minute";
    "module_name"; "month"; "names"; "national"; "natural"; "nchar"; "no";
    "noauto"; "not"; "null"; "numeric"; "num_log_buffers"; "num_log_bufs";
    "octet_length"; "of"; "on"; "only"; "open"; "option"; "or"; "order";
    "outer"; "output"; "output_type"; "overflow"; "page"; "pagelength";
    "pages"; "page_size"; "parameter"; "password"; "plan"; "position";
    "post_event"; "precision"; "prepare"; "primary"; "privileges";
    "procedure"; "protected"; "public"; "quit"; "raw_partitions";
    "rdb$db_key"; "read"; "real"; "record_version"; "recreate"; "references";
    "release"; "release"; "reserv"; "reserving"; "restrict"; "retain";
    "return"; "returning_values"; "returns"; "revoke"; "right"; "role";
    "rollback"; "row_count"; "runtime"; "savepoint"; "schema"; "second";
    "segment"; "select"; "set"; "shadow"; "shared"; "shell"; "show";
    "singular"; "size"; "smallint"; "snapshot"; "some"; "sort"; "sqlcode";
    "sqlerror"; "sqlwarning"; "stability"; "starting"; "starts"; "statement";
    "static"; "statistics"; "sub_type"; "sum"; "suspend"; "table";
    "terminator"; "then"; "time"; "timestamp"; "to"; "transaction";
    "translate"; "translation"; "trigger"; "trim"; "type"; "uncommitted";
    "union"; "unique"; "update"; "upper"; "user"; "using"; "value"; "values";
    "varchar"; "variable"; "varying"; "version"; "view"; "wait"; "wait_time";
    "weekday"; "when"; "whenever"; "where"; "while"; "with"; "work"; "write";
    "year"; "yearday" ].

(** ** Column types *)

(** The type classes of [sqlalchemy.types] this module names, with the
    dialect's own boolean. *)
Inductive TypeEngine : Type :=
  | BIGINT | BLOB | BOOLEAN | CHAR | DATE | FLOAT | INTEGER | NUMERIC
  | SMALLINT | TEXT | TIME | TIMESTAMP | VARCHAR
  | Boolean | DateTime | _FBBoolean.

Definition TypeEngine_code (t : TypeEngine) : nat :=
  match t with
  | BIGINT => 0 | BLOB => 1 | BOOLEAN => 2 | CHAR => 3 | DATE => 4
  | FLOAT => 5 | INTEGER => 6 | NUMERIC => 7 | SMALLINT => 8 | TEXT => 9
  | TIME => 10 | TIMESTAMP => 11 | VARCHAR => 12 | Boolean => 13
  | DateTime => 14 | _FBBoolean => 15
  end.

Definition TypeEngine_of_code (n : nat) : option TypeEngine :=
  match n with
  | 0 => Some BIGINT | 1 => Some BLOB | 2 => Some BOOLEAN | 3 => Some CHAR
  | 4 => Some DATE | 5 => Some FLOAT | 6 => Some INTEGER | 7 => Some NUMERIC
  | 8 => Some SMALLINT | 9 => Some TEXT | 10 => Some TIME
  | 11 => Some TIMESTAMP | 12 => Some VARCHAR | 13 => Some Boolean
  | 14 => Some DateTime | 15 => Some _FBBoolean | _ => None
  end.

#[global] Instance TypeEngine_eq_dec : EqDecision TypeEngine.
Proof. solve_decision. Defined.

#[global] Program Instance TypeEngine_countable : Countable TypeEngine :=
  inj_countable TypeEngine_code TypeEngine_of_code _.
Next Obligation. by intros []. Qed.

(** ** The boolean type *)

Module FBBoolean.
Import Py.

(** [_FBBoolean.result_processor(dialect)]: the function applied to each
    fetched cell. *)
Definition result_processor (v : value) : value :=
  match v with
  | PyNone => PyNone
  | _ => py_or (py_and v (PyBool true)) (PyBool false)
  end.

(** [_FBBoolean.bind_processor(dialect)]: the function applied to each
    bound parameter. [value is True] and [value is False] single out the
    two boolean objects. *)
Definition bind_processor (v : value) : value :=
  match v with
  | PyBool true => PyInt 1
  | PyBool false => PyInt 0
  | PyNone => PyNone
  | _ => py_or (py_and v (PyBool true)) (PyBool false)
  end.

End FBBoolean.

Definition colspecs : gmap TypeEngine TypeEngine :=
  {[ Boolean := _FBBoolean ]}.

Definition ischema_names : gmap string TypeEngine :=
  list_to_map [
    ("SHORT", SMALLINT);
    ("LONG", BIGINT);
    ("QUAD", FLOAT);
    ("FLOAT", FLOAT);
    ("DATE", DATE);
    ("TIME", TIME);
    ("TEXT", TEXT);
    ("INT64", NUMERIC);
    ("DOUBLE", FLOAT);
    ("TIMESTAMP", TIMESTAMP);
    ("VARYING", VARCHAR);
    ("CSTRING", CHAR);
    ("BLOB", BLOB) ].

(** ** The identifier preparer *)

Record IdentifierPreparer : Type := {
  reserved_words : list string;
  _requires_quotes : string -> bool
}.

Definition is_letter (c : ascii) : bool :=
  let n := N_of_ascii c in
  (((65 <=? n) && (n <=? 90)) || ((97 <=? n) && (n <=? 122)))%N.

Definition is_digit (c : ascii) : bool :=
  let n := N_of_ascii c in ((48 <=? n) && (n <=? 57))%N.

Definition legal_character (c : ascii) : bool :=
  is_letter c || is_digit c || Ascii.eqb c "_".

Fixpoint legal_characters (s : string) : bool :=
  match s with
  | EmptyString => true
  | String c s' => legal_character c && legal_characters s'
  end.

Definition illegal_initial_character (s : string) : bool :=
  match s with
  | EmptyString => false
  | String c _ => is_digit c
  end.

(** Modelled from the spec: [IdentifierPreparer._requires_quotes] is a
    method of the generic compiler, which this module only subclasses.
    An identifier requires quoting when it belongs to the reserved-word
    set, whose words are matched without regard to case, or when it
    fails the identifier-syntax check: a leading digit, or content other
    than letters, digits and the underscore. *)
Definition requires_quotes (reserved : list string) (value : string) : bool :=
  bool_decide (Py.lower value ∈ reserved)
  || illegal_initial_character value
  || negb (legal_characters value).

(** [FBIdentifierPreparer]: the generic preparer over [RESERVED_WORDS]. *)
Definition FBIdentifierPreparer : IdentifierPreparer :=
  {| reserved_words := RESERVED_WORDS;
     _requires_quotes := requires_quotes RESERVED_WORDS |}.

(** ** Effects: assertions and warnings *)

Inductive exn : Type := AssertionError.

(** A computation reads the warnings emitted so far and either raises or
    returns, with the warnings it leaves behind. *)
Definition M (A : Type) : Type := list string -> (exn + A) * list string.

#[global] Instance M_ret : MRet M := fun A x w => (inr x, w).

#[global] Instance M_bind : MBind M := fun A B f m w =>
  match m w with
  | (inl e, w') => (inl e, w')
  | (inr x, w') => f x w'
  end.

Definition raise {A : Type} (e : exn) : M A := fun w => (inl e, w).

(** [util.warn(msg)]. *)
Definition warn (msg : string) : M unit := fun w => (inr tt, w ++ [msg]).

(** [assert b]. *)
Definition assert_ (b : bool) : M unit :=
  if b then mret tt else raise AssertionError.

(** ["%s" % name] for a name that may be [None]. *)
Definition format_s (name : option string) : string := default "None" name.

(** ** The catalog, as the connection answers the dialect's queries *)

(** A row of [tblqry], by column label. Type name and scale are never
    null in the catalog; the other cells may be. *)
Record ColumnRow : Type := {
  fname : option string;
  null_flag : option Z;
  ftype : string;
  stype : option Z;
  flen : option Z;
  fprec : option Z;
  fscale : Z;
  fdefault : option string
}.

(** A row of [fkqry], by column label. *)
Record ForeignKeyRow : Type := {
  fk_cname : option string;
  fk_fname : option string;
  fk_targetrname : option string;
  fk_targetfname : option string
}.

(** [connection.execute(query, params)] for each of the queries below,
    as the rows the cursor yields in order; a parameter is [None] when
    the name sent is. [server_version] is what the generic
    [initialize] stores in [server_version_info]. *)
Record Connection : Type := {
  server_version : list Z;
  execute_keyqry : string -> option string -> list (option string);
  execute_genqry : option string -> option string -> list (option string);
  execute_tblqry : option string -> list ColumnRow;
  execute_fkqry : string -> option string -> list ForeignKeyRow
}.

(** ** The dialect *)

Record FBDialect : Type := {
  identifier_preparer : IdentifierPreparer;
  server_version_info : list Z;
  _version_two : bool;
  dialect_ischema_names : gmap string TypeEngine;
  dialect_colspecs : gmap TypeEngine TypeEngine
}.

(** The class attributes, before the first connection. *)
Definition FBDialect_new : FBDialect :=
  {| identifier_preparer := FBIdentifierPreparer;
     server_version_info := [];
     _version_two := true;
     dialect_ischema_names := ischema_names;
     dialect_colspecs := colspecs |}.

(** [FBDialect.initialize]: the generic step records the server version,
    then a server that is not above [(2,)] gets the older tables. *)
Definition initialize (self : FBDialect) (connection : Connection) : FBDialect :=
  let info := server_version connection in
  let version_two := Py.tuple_gt info [2%Z] in
  if negb version_two then
    {| identifier_preparer := identifier_preparer self;
       server_version_info := info;
       _version_two := version_two;
       dialect_ischema_names := <["TIMESTAMP" := DATE]> ischema_names;
       dialect_colspecs := {[ DateTime := DATE ]} |}
  else
    {| identifier_preparer := identifier_preparer self;
       server_version_info := info;
       _version_two := version_two;
       dialect_ischema_names := dialect_ischema_names self;
       dialect_colspecs := dialect_colspecs self |}.

(** [name and name.rstrip()]. *)
Definition and_rstrip (name : option string) : option string :=
  match name with
  | None => None
  | Some "" => Some ""
  | Some s => Some (Py.rstrip s)
  end.

(** [FBDialect.normalize_name]. *)
Definition normalize_name (self : FBDialect) (name : option string)
  : option string :=
  match and_rstrip name with
  | None => None
  | Some name =>
      if String.eqb (Py.upper name) name
         && negb (_requires_quotes (identifier_preparer self) (Py.lower name))
      then Some (Py.lower name)
      else Some name
  end.

(** [FBDialect.denormalize_name]. *)
Definition denormalize_name (self : FBDialect) (name : option string)
  : option string :=
  match name with
  | None => None
  | Some name =>
      if String.eqb (Py.lower name) name
         && negb (_requires_quotes (identifier_preparer self) (Py.lower name))
      then Some (Py.upper name)
      else Some name
  end.

(** ** Catalog reflection *)

(** The object a reflected type is: the placeholder for an unknown type
    name, or a class of [ischema_names] (or [TEXT], [BLOB]) called with
    the arguments the row supplies. *)
Inductive TypeInstance : Type :=
  | NULLTYPE
  | WithPrecisionScale (cls : TypeEngine) (precision : option Z) (scale : Z)
  | WithLength (cls : TypeEngine) (length : option Z)
  | NoArguments (cls : TypeEngine)
  | WithRow (cls : TypeEngine) (row : ColumnRow).

(** [dict(name=...)], the sequence linked to a column. *)
Record SequenceRecord : Type := { seq_name : option string }.

(** The dictionary [col_d]. Its ['sequence'] key is set only for a
    linked column: [col_sequence] is [None] when the key is missing. *)
Record ColumnRecord : Type := {
  col_name : option string;
  col_type : TypeInstance;
  col_nullable : bool;
  col_default : option string;
  col_sequence : option SequenceRecord
}.

(** The dictionary the [defaultdict] of [get_foreign_keys] creates and
    the loop fills in. *)
Record ForeignKeyRecord : Type := {
  fk_name : option string;
  constrained_columns : list (option string);
  referred_schema : option string;
  referred_table : option string;
  referred_columns : list (option string)
}.

(** [FBDialect.get_primary_keys]. *)
Definition get_primary_keys (self : FBDialect) (connection : Connection)
    (table_name : option string) : list (option string) :=
  let tablename := denormalize_name self table_name in
  let c := execute_keyqry connection "PRIMARY KEY" tablename in
  map (normalize_name self) c.

(** [FBDialect.get_column_sequence]: [fetchone] takes the first row of
    the heuristic query, if there is one. *)
Definition get_column_sequence (self : FBDialect) (connection : Connection)
    (table_name column_name : option string) : option SequenceRecord :=
  let tablename := denormalize_name self table_name in
  let colname := denormalize_name self column_name in
  let genc := execute_genqry connection tablename colname in
  match genc with
  | [] => None
  | genr :: _ => Some {| seq_name := normalize_name self genr |}
  end.

(** The type of a column, from its row (the [colspec] cascade of
    [get_columns]). *)
Definition reflect_type (self : FBDialect) (name : option string)
    (row : ColumnRow) : M TypeInstance :=
  let colspec := Py.rstrip (ftype row) in
  match dialect_ischema_names self !! colspec with
  | None =>
      _ ← warn ("Did not recognize type '" +:+ colspec +:+ "' of column '"
                +:+ format_s name +:+ "'");
      mret NULLTYPE
  | Some coltype =>
      if String.eqb colspec "INT64" then
        mret (WithPrecisionScale coltype (fprec row) (fscale row * -1))
      else if String.eqb colspec "VARYING" || String.eqb colspec "CSTRING" then
        mret (WithLength coltype (flen row))
      else if String.eqb colspec "TEXT" then
        mret (WithLength TEXT (flen row))
      else if String.eqb colspec "BLOB" then
        if bool_decide (stype row = Some 1%Z) then mret (NoArguments TEXT)
        else mret (NoArguments BLOB)
      else mret (WithRow coltype row)
  end.

(** The default of a column, from the catalog's default source. *)
Definition reflect_default (row : ColumnRow) : M (option string) :=
  match fdefault row with
  | None => mret None
  | Some d =>
      _ ← assert_ (Py.startswith "DEFAULT " (Py.upper d));
      mret (Some (Py.slice_from 8 d))
  end.

(** [bool(row['null_flag'])]. *)
Definition bool_of_flag (flag : option Z) : bool :=
  match flag with
  | None => false
  | Some n => negb (n =? 0)%Z
  end.

(** One turn of the [while True] loop of [get_columns], for the row
    just fetched. *)
Definition reflect_column (self : FBDialect) (connection : Connection)
    (pkey_cols : list (option string)) (tablename : option string)
    (row : ColumnRow) : M ColumnRecord :=
  let name := normalize_name self (fname row) in
  coltype ← reflect_type self name row;
  defvalue ← reflect_default row;
  let seq_d :=
    match pkey_cols with
    | [pk] =>
        if bool_decide (name = pk)
        then get_column_sequence self connection tablename name
        else None
    | _ => None
    end in
  mret {| col_name := name;
          col_type := coltype;
          col_nullable := negb (bool_of_flag (null_flag row));
          col_default := defvalue;
          col_sequence := seq_d |}.

(** The loop of [get_columns] over the rows still to fetch. *)
Fixpoint reflect_columns (self : FBDialect) (connection : Connection)
    (pkey_cols : list (option string)) (tablename : option string)
    (rows : list ColumnRow) (cols : list ColumnRecord)
  : M (list ColumnRecord) :=
  match rows with
  | [] => mret cols
  | row :: rows' =>
      col_d ← reflect_column self connection pkey_cols tablename row;
      reflect_columns self connection pkey_cols tablename rows'
        (cols ++ [col_d])
  end.

(** [FBDialect.get_columns]. *)
Definition get_columns (self : FBDialect) (connection : Connection)
    (table_name : option string) : M (list ColumnRecord) :=
  let pkey_cols := get_primary_keys self connection table_name in
  let tablename := denormalize_name self table_name in
  let c := execute_tblqry connection tablename in
  reflect_columns self connection pkey_cols tablename c [].

(** The value the [defaultdict] of [get_foreign_keys] makes for a
    missing key: a new dictionary with two new lists each time. *)
Definition fk_default : ForeignKeyRecord :=
  {| fk_name := None;
     constrained_columns := [];
     referred_schema := None;
     referred_table := None;
     referred_columns := [] |}.

(** [not fk['name']]. *)
Definition name_unset (name : option string) : bool :=
  match name with
  | None => true
  | Some s => String.eqb s ""
  end.

(** The body of the [for row in c] loop of [get_foreign_keys]. *)
Definition fk_step (self : FBDialect)
    (fks : gmap (option string) ForeignKeyRecord) (row : ForeignKeyRow)
  : gmap (option string) ForeignKeyRecord :=
  let cname := normalize_name self (fk_cname row) in
  let fk := default fk_default (fks !! cname) in
  let named := name_unset (fk_name fk) in
  <[ cname :=
     {| fk_name := if named then cname else fk_name fk;
        constrained_columns :=
          constrained_columns fk ++ [normalize_name self (fk_fname row)];
        referred_schema := referred_schema fk;
        referred_table :=
          if named then normalize_name self (fk_targetrname row)
          else referred_table fk;
        referred_columns :=
          referred_columns fk ++ [normalize_name self (fk_targetfname row)] |}
  ]> fks.

(** [FBDialect.get_foreign_keys]: the values of the dictionary, in the
    dictionary's own order. *)
Definition get_foreign_keys (self : FBDialect) (connection : Connection)
    (table_name : option string) : list ForeignKeyRecord :=
  let tablename := denormalize_name self table_name in
  let c := execute_fkqry connection "FOREIGN KEY" tablename in
  let fks := foldl (fk_step self) ∅ c in
  (map_to_list fks).*2.

(** ** The statement compiler *)

(** What [get_select_precolumns] reads of a [Select]. *)
Record Select : Type := {
  _limit : option Z;
  _offset : option Z;
  _distinct : bool
}.

(** [result += keyword + " %d " % n], under [if n:]: nothing is added
    for [None] or for zero. *)
Definition add_count (result keyword : string) (n : option Z) : string :=
  match n with
  | None => result
  | Some n =>
      if (n =? 0)%Z then result
      else result +:+ keyword +:+ " " +:+ Py.format_d n +:+ " "
  end.

(** [FBCompiler.get_select_precolumns]. *)
Definition get_select_precolumns (select : Select) : string :=
  let result := "" in
  let result := add_count result "FIRST" (_limit select) in
  let result := add_count result "SKIP" (_offset select) in
  let result :=
    if _distinct select then result +:+ "DISTINCT " else result in
  result.

(** [FBCompiler.limit_clause]. *)
Definition limit_clause (select : Select) : string := "".

Section Compiler.

(** Column expressions, and the part of a statement that only the
    generic compiler reads. *)
Context {ColumnElement Body : Type}.

(** An entry of a returning list: a column expression, or a
    [Selectable] with its [columns]. *)
Inductive ReturningEntry : Type :=
  | Column (c : ColumnElement)
  | Selectable (columns : list ColumnElement).

(** An [Insert], [Update] or [Delete]; [firebird_returning] is the one
    keyword argument the dialect defines. *)
Record Statement : Type := {
  body : Body;
  kwargs : gmap string (list ReturningEntry)
}.

(** The methods of the generic [SQLCompiler] that the Firebird
    compiler calls: [process] (with [within_columns_clause=True]) and
    the three statement visitors it overrides. *)
Record SQLCompiler : Type := {
  process : ColumnElement -> string;
  super_visit_update : Statement -> string;
  super_visit_insert : Statement -> string;
  super_visit_delete : Statement -> string
}.

(** The generator [flatten_columnlist]. *)
Fixpoint flatten_columnlist (collist : list ReturningEntry)
  : list ColumnElement :=
  match collist with
  | [] => []
  | Column c :: collist' => c :: flatten_columnlist collist'
  | Selectable columns :: collist' => columns ++ flatten_columnlist collist'
  end.

(** [FBCompiler._append_returning], for the returning list found under
    [stmt.kwargs["firebird_returning"]]. *)
Definition _append_returning (self : SQLCompiler) (text : string)
    (returning_cols : list ReturningEntry) : string :=
  let columns := map (process self) (flatten_columnlist returning_cols) in
  text +:+ " RETURNING " +:+ Py.join ", " columns.

(** [FBCompiler.visit_update]. *)
Definition visit_update (self : SQLCompiler) (update_stmt : Statement)
  : string :=
  let text := super_visit_update self update_stmt in
  match kwargs update_stmt !! "firebird_returning" with
  | Some returning_cols => _append_returning self text returning_cols
  | None => text
  end.

(** [FBCompiler.visit_insert]. *)
Definition visit_insert (self : SQLCompiler) (insert_stmt : Statement)
  : string :=
  let text := super_visit_insert self insert_stmt in
  match kwargs insert_stmt !! "firebird_returning" with
  | Some returning_cols => _append_returning self text returning_cols
  | None => text
  end.

(** [FBCompiler.visit_delete]. *)
Definition visit_delete (self : SQLCompiler) (delete_stmt : Statement)
  : string :=
  let text := super_visit_delete self delete_stmt in
  match kwargs delete_stmt !! "firebird_returning" with
  | Some returning_cols => _append_returning self text returning_cols
  | None => text
  end.

End Compiler.

Arguments ReturningEntry : clear implicits.
Arguments Statement : clear implicits.
Arguments SQLCompiler : clear implicits.

(** ** Reference definitions and sample inputs *)

(** The columns an entry of a returning list stands for: itself, or the
    columns of the selectable. *)
Definition entry_columns {ColumnElement : Type}
    (entry : ReturningEntry ColumnElement) : list ColumnElement :=
  match entry with
  | Column c => [c]
  | Selectable columns => columns
  end.

(** The clause the claim describes: [" RETURNING "], then the processed
    expressions of the expanded list, separated by [", "]. *)
Definition returning_clause {ColumnElement Body : Type}
    (self : SQLCompiler ColumnElement Body)
    (returning_cols : list (ReturningEntry ColumnElement)) : string :=
  " RETURNING "
  +:+ Py.join ", " (process self <$> (returning_cols ≫= entry_columns)).

(** A select with limit 5, offset 10 and the distinct flag. *)
Definition select_5_10_distinct : Select :=
  {| _limit := Some 5%Z; _offset := Some 10%Z; _distinct := true |}.

(** A connection to a server that reports the given version and whose
    catalog is empty. *)
Definition connection_of_version (version : list Z) : Connection :=
  {| server_version := version;
     execute_keyqry := fun _ _ => [];
     execute_genqry := fun _ _ => [];
     execute_tblqry := fun _ => [];
     execute_fkqry := fun _ _ => [] |}.


(** A compiler over column names: an expression is processed to its
    name and the generic visitors give the statement's own text. *)
Definition name_compiler : SQLCompiler string string :=
  {| process := fun c => c;
     super_visit_update := body;
     super_visit_insert := body;
     super_visit_delete := body |}.

(** The update of the module's documentation, returning two columns. *)
Definition update_returning_id_salary : Statement string string :=
  {| body := "UPDATE empl SET salary=? WHERE empl.sales > ?";
     kwargs := {[ "firebird_returning" :=
                  [Column "empl.id"; Column "empl.salary"] ]} |}.

(** A delete returning a whole table and one more column. *)
Definition delete_returning_table : Statement string string :=
  {| body := "DELETE FROM t";
     kwargs := {[ "firebird_returning" :=
                  [Selectable ["t.a"; "t.b"]; Column "t.c"] ]} |}.

(** What the column record of a row holds, when the loop body returns
    one. *)
Definition reflects (self : FBDialect) (connection : Connection)
    (tablename : option string) (row : ColumnRow) (col_d : ColumnRecord)
  : Prop :=
  col_name col_d = normalize_name self (fname row)
  ∧ col_nullable col_d = negb (bool_of_flag (null_flag row))
  ∧ col_default col_d = Py.slice_from 8 <$> fdefault row
  ∧ (col_sequence col_d = None
     ∨ col_sequence col_d
       = get_column_sequence self connection tablename (col_name col_d)).

(** The default source of a row is null, or carries the prefix in some
    mix of cases. *)
Definition default_well_formed (row : ColumnRow) : Prop :=
  ∀ d, fdefault row = Some d -> Py.startswith "DEFAULT " (Py.upper d) = true.

(** The default source of a row is a string without the prefix. *)
Definition default_malformed (row : ColumnRow) : Prop :=
  ∃ d, fdefault row = Some d ∧ Py.startswith "DEFAULT " (Py.upper d) = false.

(** A catalog row for a column of the given name, type name and default
    source. *)
Definition column_row (name type : string) (default : option string)
  : ColumnRow :=
  {| fname := Some name;
     null_flag := None;
     ftype := type;
     stype := None;
     flen := Some 4%Z;
     fprec := Some 0%Z;
     fscale := 0%Z;
     fdefault := default |}.

(** A connection to a server whose catalog answers with the given
    primary-key fields, generators, columns and foreign-key rows,
    whatever the table asked for. *)
Definition catalog_connection (pk generators : list (option string))
    (columns : list ColumnRow) (fkeys : list ForeignKeyRow) : Connection :=
  {| server_version := [2; 1]%Z;
     execute_keyqry := fun _ _ => pk;
     execute_genqry := fun _ _ => generators;
     execute_tblqry := fun _ => columns;
     execute_fkqry := fun _ _ => fkeys |}.

(** Three columns whose default sources are well-formed. *)
Definition connection_defaults : Connection :=
  catalog_connection [] []
    [ column_row "ID          " "LONG" None;
      column_row "SALARY      " "DOUBLE" (Some "DEFAULT 0");
      column_row "GRADE       " "SHORT" (Some "default 'a'") ] [].

(** A column whose default source lacks the prefix altogether. *)
Definition connection_bad_default : Connection :=
  catalog_connection [] []
    [ column_row "ID          " "LONG" None;
      column_row "SALARY      " "DOUBLE" (Some "0") ] [].

(** A column whose default source has the prefix in lower case. *)
Definition connection_lowercase_default : Connection :=
  catalog_connection [] [] [ column_row "SALARY" "DOUBLE" (Some "default 0") ] [].

(** A single-column primary key and no trigger that feeds it. *)
Definition connection_no_generator : Connection :=
  catalog_connection [Some "ID"] [] [ column_row "ID" "LONG" None ] [].

(** A single-column primary key and two candidate generators. *)
Definition connection_two_generators : Connection :=
  catalog_connection [Some "ID"]
    [Some "GEN_EMPL_ID   "; Some "GEN_AUDIT_ID  "]
    [ column_row "ID" "LONG" None ] [].


(** The rows of the foreign-key query that belong to the constraint
    whose normalized name is [cname], in the order of the query. *)
Definition rows_of_constraint (self : FBDialect) (cname : option string)
    (rows : list ForeignKeyRow) : list ForeignKeyRow :=
  filter (fun row => normalize_name self (fk_cname row) = cname) rows.

(** What the dictionary of [get_foreign_keys] holds once the loop has
    read [rows]: under each name, the local and the referenced columns
    of the rows of that constraint (none for a name not seen yet). *)
Definition fks_collect (self : FBDialect) (rows : list ForeignKeyRow)
    (fks : gmap (option string) ForeignKeyRecord) : Prop :=
  ∀ cname : option string,
    constrained_columns (default fk_default (fks !! cname))
    = (fun row => normalize_name self (fk_fname row))
        <$> rows_of_constraint self cname rows
    ∧ referred_columns (default fk_default (fks !! cname))
      = (fun row => normalize_name self (fk_targetfname row))
          <$> rows_of_constraint self cname rows.


(** ** The other catalog queries *)

(** A row of the query of [get_indexes], by column label. *)
Record IndexRow : Type := {
  index_name : option string;
  unique_flag : option Z;
  field_name : option string
}.

(** [connection.execute(query, params)] for the queries of [has_table],
    [has_sequence], [table_names], [get_view_names],
    [get_view_definition] and [get_indexes]. The two existence queries
    select the constant 1, so their rows carry nothing; the name
    queries select one column; the view query selects [view_source]. *)
Record Catalog : Type := {
  execute_table_exists : option string -> list unit;
  execute_generator_exists : option string -> list unit;
  execute_relation_names : list (option string);
  execute_view_names : list (option string);
  execute_view_source : option string -> list (option string);
  execute_index_qry : option string -> list IndexRow
}.

(** [c.first() is not None]. *)
Definition has_first {A : Type} (c : list A) : bool :=
  match c with
  | [] => false
  | _ :: _ => true
  end.

(** [FBDialect.has_table]. *)
Definition has_table (self : FBDialect) (connection : Catalog)
    (table_name : option string) : bool :=
  let c := execute_table_exists connection (denormalize_name self table_name) in
  has_first c.

(** [FBDialect.has_sequence]. *)
Definition has_sequence (self : FBDialect) (connection : Catalog)
    (sequence_name : option string) : bool :=
  let c :=
    execute_generator_exists connection (denormalize_name self sequence_name) in
  has_first c.

(** [FBDialect.table_names], which [get_table_names] calls. *)
Definition table_names (self : FBDialect) (connection : Catalog)
  : list (option string) :=
  map (normalize_name self) (execute_relation_names connection).

Definition get_table_names (self : FBDialect) (connection : Catalog)
  : list (option string) :=
  table_names self connection.

(** [FBDialect.get_view_names]. *)
Definition get_view_names (self : FBDialect) (connection : Catalog)
  : list (option string) :=
  map (normalize_name self) (execute_view_names connection).

(** [FBDialect.get_view_definition]: the source of the first row, a row
    of one column being true. *)
Definition get_view_definition (self : FBDialect) (connection : Catalog)
    (view_name : option string) : option string :=
  let rp := execute_view_source connection (denormalize_name self view_name) in
  match rp with
  | [] => None
  | row :: _ => row
  end.

(** The dictionary an index is reported as, once the loop has filled
    it in. *)
Record IndexRecord : Type := {
  idx_name : option string;
  column_names : list (option string);
  unique : bool
}.

(** The body of the [for row in c] loop of [get_indexes]. The
    dictionary the [defaultdict] makes for a new key is empty, and the
    body sets ['name'] in it at once: ['name' not in indexrec] holds
    exactly for a key that [indexes] did not have. The key is the
    index name as the catalog gives it. *)
Definition index_step (self : FBDialect)
    (indexes : gmap (option string) IndexRecord) (row : IndexRow)
  : gmap (option string) IndexRecord :=
  let indexrec :=
    match indexes !! index_name row with
    | None =>
        {| idx_name := normalize_name self (index_name row);
           column_names := [];
           unique := bool_of_flag (unique_flag row) |}
    | Some indexrec => indexrec
    end in
  <[ index_name row :=
     {| idx_name := idx_name indexrec;
        column_names :=
          column_names indexrec ++ [normalize_name self (field_name row)];
        unique := unique indexrec |} ]> indexes.

(** [FBDialect.get_indexes]. *)
Definition get_indexes (self : FBDialect) (connection : Catalog)
    (table_name : option string) : list IndexRecord :=
  let c := execute_index_qry connection (denormalize_name self table_name) in
  let indexes := foldl (index_step self) ∅ c in
  (map_to_list indexes).*2.

(** ** The other compiler rules *)

Inductive compile_exn : Type := IndexError.

Section Functions.

Context {ColumnElement Body : Type}.

(** [FBCompiler.visit_substring_func], over [func.clauses.clauses]:
    indexing past the end of the list raises. *)
Definition visit_substring_func (self : SQLCompiler ColumnElement Body)
    (clauses : list ColumnElement) : compile_exn + string :=
  match clauses !! 0%nat with
  | None => inl IndexError
  | Some c0 =>
      let s := process self c0 in
      match clauses !! 1%nat with
      | None => inl IndexError
      | Some c1 =>
          let start := process self c1 in
          if (2 <? length clauses)%nat then
            match clauses !! 2%nat with
            | None => inl IndexError
            | Some c2 =>
                let length := process self c2 in
                inr ("SUBSTRING(" +:+ s +:+ " FROM " +:+ start
                     +:+ " FOR " +:+ length +:+ ")")
            end
          else inr ("SUBSTRING(" +:+ s +:+ " FROM " +:+ start +:+ ")")
      end
  end.

End Functions.

Section Sequences.

(** Sequences, and [preparer.format_sequence] of the generic preparer. *)
Context {SequenceElement : Type} (format_sequence : SequenceElement -> string).

(** [FBDDLCompiler.visit_create_sequence]. *)
Definition visit_create_sequence (dialect : FBDialect)
    (element : SequenceElement) : string :=
  if _version_two dialect
  then "CREATE SEQUENCE " +:+ format_sequence element
  else "CREATE GENERATOR " +:+ format_sequence element.

(** [FBDDLCompiler.visit_drop_sequence]. *)
Definition visit_drop_sequence (dialect : FBDialect)
    (element : SequenceElement) : string :=
  if _version_two dialect
  then "DROP SEQUENCE " +:+ format_sequence element
  else "DROP GENERATOR " +:+ format_sequence element.

End Sequences.

Section Length.

Context {ColumnElement Body : Type}.

(** What the function visitors read of a function: its [clauses] and
    the parenthesized [clause_expr] built from them. *)
Record FunctionElement : Type := {
  clauses : list ColumnElement;
  clause_expr : ColumnElement
}.

(** [FBCompiler.function_argspec]: an empty clause list is false. *)
Definition function_argspec (self : SQLCompiler ColumnElement Body)
    (func : FunctionElement) : string :=
  match clauses func with
  | _ :: _ => process self (clause_expr func)
  | [] => ""
  end.

(** [FBCompiler.visit_length_func], also bound to
    [visit_char_length_func]. *)
Definition visit_length_func (self : SQLCompiler ColumnElement Body)
    (dialect : FBDialect) (function : FunctionElement) : string :=
  if _version_two dialect
  then "char_length" +:+ function_argspec self function
  else "strlen" +:+ function_argspec self function.

End Length.

Arguments FunctionElement : clear implicits.


(** ** Reference definitions for column reflection *)

(** The warning [get_columns] emits for a row whose type name the
    dialect does not know. *)
Definition unrecognized_warning (self : FBDialect) (row : ColumnRow) : string :=
  "Did not recognize type '" +:+ Py.rstrip (ftype row) +:+ "' of column '"
  +:+ format_s (normalize_name self (fname row)) +:+ "'".

(** The warnings a row gives rise to: one when its type name, without
    trailing white space, is not among the dialect's, none otherwise. *)
Definition row_warnings (self : FBDialect) (row : ColumnRow) : list string :=
  match dialect_ischema_names self !! Py.rstrip (ftype row) with
  | None => [unrecognized_warning self row]
  | Some _ => []
  end.

(** The record of a row, field by field. *)
Definition column_of_row (self : FBDialect) (connection : Connection)
    (pkey_cols : list (option string)) (tablename : option string)
    (row : ColumnRow) (col_d : ColumnRecord) : Prop :=
  col_name col_d = normalize_name self (fname row)
  ∧ col_nullable col_d = negb (bool_of_flag (null_flag row))
  ∧ col_default col_d = Py.slice_from 8 <$> fdefault row
  ∧ (∀ w, reflect_type self (col_name col_d) row w
          = (inr (col_type col_d), w ++ row_warnings self row))
  ∧ col_sequence col_d
    = match pkey_cols with
      | [pk] =>
          if bool_decide (col_name col_d = pk)
          then get_column_sequence self connection tablename (col_name col_d)
          else None
      | _ => None
      end.


(** A table with a column of a type the dialect does not know. *)
Definition connection_unknown_type : Connection :=
  catalog_connection [] []
    [ column_row "ID" "LONG" None;
      column_row "SHAPE" "GEOMETRY  " None ] [].


(** A price with two decimals, a memo and a time stamp, on a server of
    version 1.5. *)
Definition connection_legacy_types : Connection :=
  {| server_version := [1; 5]%Z;
     execute_keyqry := fun _ _ => [];
     execute_genqry := fun _ _ => [];
     execute_tblqry := fun _ =>
       [ {| fname := Some "PRICE"; null_flag := Some 1%Z; ftype := "INT64   ";
            stype := Some 1%Z; flen := Some 8%Z; fprec := Some 10%Z;
            fscale := (-2)%Z; fdefault := None |};
         {| fname := Some "MEMO"; null_flag := None; ftype := "BLOB";
            stype := Some 1%Z; flen := Some 8%Z; fprec := None;
            fscale := 0%Z; fdefault := None |};
         column_row "SEEN" "TIMESTAMP" (Some "DEFAULT 'NOW'") ];
     execute_fkqry := fun _ _ => [] |}.


(** A key of two columns, each of which a trigger feeds from a
    generator. *)
Definition connection_composite_key : Connection :=
  catalog_connection [Some "ID"; Some "REV"] [Some "GEN_DOC_ID"]
    [ column_row "ID" "LONG" None; column_row "REV" "LONG" None ] [].


(** What the dictionary of [get_foreign_keys] holds besides the column
    lists, once the loop has read [rows]: a name has a record exactly
    when some row belongs to it; the record carries the name, no
    schema, and the referenced table of the first row of the constraint
    (of the last one when the name is [None] or empty, for then every
    row sets it again). *)
Definition fks_headers (self : FBDialect) (rows : list ForeignKeyRow)
    (fks : gmap (option string) ForeignKeyRecord) : Prop :=
  ∀ cname : option string,
    match fks !! cname with
    | None => rows_of_constraint self cname rows = []
    | Some fk =>
        fk_name fk = cname
        ∧ referred_schema fk = None
        ∧ ∃ first final,
            head (rows_of_constraint self cname rows) = Some first
            ∧ last (rows_of_constraint self cname rows) = Some final
            ∧ referred_table fk
              = normalize_name self
                  (fk_targetrname (if name_unset cname then final else first))
    end.


(** The rows of the index query that carry the index name [key], as
    the catalog gives it, in the order of the query. *)
Definition rows_of_index (key : option string) (rows : list IndexRow)
  : list IndexRow :=
  filter (fun row => index_name row = key) rows.

(** What the dictionary of [get_indexes] holds once the loop has read
    [rows]: an index name has a record exactly when some row carries
    it; the record has the normalized name, the uniqueness flag of the
    index's first row and the normalized field names of its rows. *)
Definition indexes_collect (self : FBDialect) (rows : list IndexRow)
    (indexes : gmap (option string) IndexRecord) : Prop :=
  ∀ key : option string,
    match indexes !! key with
    | None => rows_of_index key rows = []
    | Some indexrec =>
        idx_name indexrec = normalize_name self key
        ∧ ∃ first rest,
            rows_of_index key rows = first :: rest
            ∧ unique indexrec = bool_of_flag (unique_flag first)
            ∧ column_names indexrec
              = (fun row => normalize_name self (field_name row))
                  <$> first :: rest
    end.

(** * Properties *)

(** ** Case folding of bytes and strings *)

Module PyFacts.
Import Py.

Ltac by_cases_on_byte c :=
  destruct c as [[] [] [] [] [] [] [] []]; vm_compute; try reflexivity;
  try discriminate; auto.

Lemma upper_lower_char c : upper_char (lower_char c) = upper_char c.
Proof. by_cases_on_byte c. Qed.

Lemma lower_upper_char c : lower_char (upper_char c) = lower_char c.
Proof. by_cases_on_byte c. Qed.

Lemma lower_lower_char c : lower_char (lower_char c) = lower_char c.
Proof. by_cases_on_byte c. Qed.

Lemma upper_upper_char c : upper_char (upper_char c) = upper_char c.
Proof. by_cases_on_byte c. Qed.

Lemma upper_lower s : upper (lower s) = upper s.
Proof. induction s as [|c s IH]; simpl; [done|]. by rewrite upper_lower_char, IH. Qed.

Lemma lower_upper s : lower (upper s) = lower s.
Proof. induction s as [|c s IH]; simpl; [done|]. by rewrite lower_upper_char, IH. Qed.

Lemma lower_lower s : lower (lower s) = lower s.
Proof. induction s as [|c s IH]; simpl; [done|]. by rewrite lower_lower_char, IH. Qed.

Lemma upper_upper s : upper (upper s) = upper s.
Proof. induction s as [|c s IH]; simpl; [done|]. by rewrite upper_upper_char, IH. Qed.

Lemma space_upper_char c : is_space (upper_char c) = is_space c.
Proof. by_cases_on_byte c. Qed.

(** Folding to upper case commutes with removing trailing white space. *)
Lemma rstrip_upper s : rstrip (upper s) = upper (rstrip s).
Proof.
  induction s as [|c s IH]; simpl; [done|].
  rewrite IH, space_upper_char.
  destruct (rstrip s); simpl; [|done].
  by destruct (is_space c).
Qed.

(** A string with no white space at all is its own [rstrip]. *)
Lemma rstrip_no_space s :
  (forall c, is_space c = true -> ~ In c (list_ascii_of_string s)) ->
  rstrip s = s.
Proof.
  induction s as [|c s IH]; simpl; intros H; [done|].
  rewrite IH by (intros c' Hc' Hin; apply (H c' Hc'); by right).
  destruct (is_space c) eqn:Hc.
  - exfalso. apply (H c Hc). by left.
  - by destruct s.
Qed.

End PyFacts.

(** ** Identifier syntax under case folding *)

Module SyntaxFacts.
Import Py PyFacts.

Lemma legal_lower_char c : legal_character (lower_char c) = legal_character c.
Proof. by_cases_on_byte c. Qed.

Lemma legal_upper_char c : legal_character (upper_char c) = legal_character c.
Proof. by_cases_on_byte c. Qed.

Lemma digit_lower_char c : is_digit (lower_char c) = is_digit c.
Proof. by_cases_on_byte c. Qed.

Lemma digit_upper_char c : is_digit (upper_char c) = is_digit c.
Proof. by_cases_on_byte c. Qed.

Lemma legal_not_space c : legal_character c = true -> is_space c = false.
Proof. by_cases_on_byte c. Qed.

Lemma legal_characters_lower s : legal_characters (lower s) = legal_characters s.
Proof. induction s as [|c s IH]; simpl; [done|]. by rewrite legal_lower_char, IH. Qed.

Lemma legal_characters_upper s : legal_characters (upper s) = legal_characters s.
Proof. induction s as [|c s IH]; simpl; [done|]. by rewrite legal_upper_char, IH. Qed.

Lemma illegal_initial_lower s :
  illegal_initial_character (lower s) = illegal_initial_character s.
Proof. destruct s; simpl; [done|]. apply digit_lower_char. Qed.

Lemma illegal_initial_upper s :
  illegal_initial_character (upper s) = illegal_initial_character s.
Proof. destruct s; simpl; [done|]. apply digit_upper_char. Qed.

Lemma legal_characters_In s c :
  legal_characters s = true -> In c (list_ascii_of_string s) ->
  legal_character c = true.
Proof.
  induction s as [|a s IH]; simpl; [done|].
  intros [Ha Hs]%andb_true_iff [->|Hin]; auto.
Qed.

Lemma rstrip_legal s : legal_characters s = true -> rstrip s = s.
Proof.
  intros Hs. apply rstrip_no_space. intros c Hc Hin.
  apply (legal_characters_In s c Hs) in Hin.
  apply legal_not_space in Hin. congruence.
Qed.

(** The quoting policy looks at a name through its lower-case form
    only: folding the case of a name does not change the answer. *)
Lemma requires_quotes_lower rw s :
  requires_quotes rw (lower s) = requires_quotes rw s.
Proof.
  unfold requires_quotes.
  by rewrite lower_lower, illegal_initial_lower, legal_characters_lower.
Qed.

Lemma requires_quotes_upper rw s :
  requires_quotes rw (upper s) = requires_quotes rw s.
Proof.
  unfold requires_quotes.
  by rewrite lower_upper, illegal_initial_upper, legal_characters_upper.
Qed.

Lemma requires_quotes_false rw s :
  requires_quotes rw s = false <->
  (lower s ∉ rw) ∧ illegal_initial_character s = false
  ∧ legal_characters s = true.
Proof.
  unfold requires_quotes.
  rewrite !orb_false_iff, negb_false_iff, bool_decide_eq_false. tauto.
Qed.

Lemma FBIdentifierPreparer_requires_quotes s :
  _requires_quotes FBIdentifierPreparer s = requires_quotes RESERVED_WORDS s.
Proof. reflexivity. Qed.

Lemma and_rstrip_Some s : and_rstrip (Some s) = Some (rstrip s).
Proof. by destruct s. Qed.

End SyntaxFacts.

(** ** Normalizing and denormalizing names *)

Section Names.
Import Py PyFacts SyntaxFacts.

(** The lemmas of this section hold for a dialect over any quoting
    policy: they rest on the two functions alone. *)
Variable self : FBDialect.

Lemma normalize_stripped s :
  rstrip s = s ->
  normalize_name self (Some s)
  = if String.eqb (upper s) s
       && negb (_requires_quotes (identifier_preparer self) (lower s))
    then Some (lower s) else Some s.
Proof. intros Hs. unfold normalize_name. by rewrite and_rstrip_Some, Hs. Qed.

(** An all upper-case name without trailing white space whose lower-case
    form the policy does not quote is normalized to that form, and
    denormalized back to itself. *)
Lemma normalize_uppercase_any_policy n :
  upper n = n ->
  rstrip n = n ->
  _requires_quotes (identifier_preparer self) (lower n) = false ->
  normalize_name self (Some n) = Some (lower n)
  ∧ denormalize_name self (normalize_name self (Some n)) = Some n.
Proof.
  intros Hup Hs Hq.
  rewrite (normalize_stripped n Hs), Hup, String.eqb_refl, Hq. simpl.
  split; [done|]. unfold denormalize_name.
  by rewrite lower_lower, String.eqb_refl, Hq, upper_lower, Hup.
Qed.

(** Normalizing undoes denormalizing, as far as normalizing goes, for
    every name without trailing white space. *)
Lemma round_trip_any_policy n :
  rstrip n = n ->
  normalize_name self (denormalize_name self (Some n))
  = normalize_name self (Some n).
Proof.
  intros Hs. unfold denormalize_name.
  destruct (String.eqb (lower n) n) eqn:Hlow; [|done].
  destruct (_requires_quotes (identifier_preparer self) (lower n)) eqn:Hq;
    [done|]. simpl.
  apply String.eqb_eq in Hlow.
  rewrite (normalize_stripped (upper n)) by (by rewrite rstrip_upper, Hs).
  rewrite (normalize_stripped n Hs).
  rewrite upper_upper, String.eqb_refl, lower_upper, Hq, Hlow. simpl.
  by destruct (String.eqb (upper n) n).
Qed.

End Names.

(** C1: for every dialect with the Firebird preparer and every
    identifier [n] that is all upper-case ([n.upper() == n]), passes the
    identifier-syntax check (no leading digit, only letters, digits and
    underscores: no character requires quoting) and is not a reserved
    word, [normalize_name(n)] is [n.lower()] and
    [denormalize_name(normalize_name(n))] is [n]. *)
Theorem normalize_uppercase_identifier (self : FBDialect) (n : string) :
  identifier_preparer self = FBIdentifierPreparer ->
  Py.upper n = n ->
  illegal_initial_character n = false ->
  legal_characters n = true ->
  Py.lower n ∉ RESERVED_WORDS ->
  normalize_name self (Some n) = Some (Py.lower n)
  ∧ denormalize_name self (normalize_name self (Some n)) = Some n.
Proof.
  intros Hp Hup Hini Hlegal Hres.
  apply normalize_uppercase_any_policy;
    [done | by apply SyntaxFacts.rstrip_legal |].
  rewrite Hp, SyntaxFacts.FBIdentifierPreparer_requires_quotes.
  rewrite SyntaxFacts.requires_quotes_lower.
  apply SyntaxFacts.requires_quotes_false. auto.
Qed.

Lemma normalize_uppercase_identifier_witness :
  normalize_name FBDialect_new (Some "EMPLOYEE_2") = Some "employee_2"
  ∧ denormalize_name FBDialect_new
      (normalize_name FBDialect_new (Some "EMPLOYEE_2"))
    = Some "EMPLOYEE_2".
Proof.
  apply (normalize_uppercase_identifier FBDialect_new "EMPLOYEE_2");
    [reflexivity | reflexivity | reflexivity | reflexivity |].
  apply (bool_decide_unpack _). vm_compute. exact I.
Defined.

(** C2: for every dialect with the Firebird preparer and every
    identifier [n], in any mix of cases, that does not require quoting,
    [normalize_name(denormalize_name(n))] is [normalize_name(n)]. *)
Theorem normalize_denormalize_round_trip (self : FBDialect) (n : string) :
  identifier_preparer self = FBIdentifierPreparer ->
  requires_quotes RESERVED_WORDS n = false ->
  normalize_name self (denormalize_name self (Some n))
  = normalize_name self (Some n).
Proof.
  intros Hp Hq. apply round_trip_any_policy.
  apply SyntaxFacts.rstrip_legal.
  apply SyntaxFacts.requires_quotes_false in Hq as (_ & _ & Hlegal).
  exact Hlegal.
Qed.

Lemma normalize_denormalize_round_trip_witness :
  normalize_name FBDialect_new (denormalize_name FBDialect_new (Some "empSalary"))
  = normalize_name FBDialect_new (Some "empSalary")
  ∧ normalize_name FBDialect_new (denormalize_name FBDialect_new (Some "salary"))
    = normalize_name FBDialect_new (Some "salary").
Proof.
  split.
  - apply (normalize_denormalize_round_trip FBDialect_new "empSalary");
      [reflexivity | vm_compute; reflexivity].
  - apply (normalize_denormalize_round_trip FBDialect_new "salary");
      [reflexivity | vm_compute; reflexivity].
Defined.

(** C8, as the claim states it, fails: the empty string is not [None],
    so neither function returns [None] for it; the name goes on to the
    case and quoting tests like any other. *)
Lemma normalize_empty_string_is_not_None :
  normalize_name FBDialect_new (Some "") ≠ None
  ∧ denormalize_name FBDialect_new (Some "") ≠ None.
Proof. split; vm_compute; discriminate. Qed.

(** C8, amended: whatever the quoting policy of the dialect,
    [normalize_name] and [denormalize_name] return [None] for [None]:
    the name is not inspected and the policy is not asked. *)
Theorem normalize_denormalize_None (self : FBDialect) :
  normalize_name self None = None
  ∧ denormalize_name self None = None.
Proof. split; reflexivity. Qed.

(** ** SELECT pre-columns *)

(** C3, as the claim states it, fails: with limit 5, offset 10 and
    distinct set, the fragment is not ["DISTINCT FIRST 5 SKIP 10 "]. *)
Lemma precolumns_do_not_start_with_DISTINCT :
  get_select_precolumns select_5_10_distinct ≠ "DISTINCT FIRST 5 SKIP 10 ".
Proof. vm_compute. discriminate. Qed.

(** [DISTINCT ] is always the last thing added: the fragment of a
    distinct select is the fragment of the same select without the flag,
    followed by the keyword. *)
Lemma precolumns_distinct_last (limit offset : option Z) :
  get_select_precolumns
    {| _limit := limit; _offset := offset; _distinct := true |}
  = get_select_precolumns
      {| _limit := limit; _offset := offset; _distinct := false |}
    +:+ "DISTINCT ".
Proof. reflexivity. Qed.

(** C3, amended: with limit 5, offset 10 and distinct set, the fragment
    is exactly ["FIRST 5 SKIP 10 DISTINCT "], and [limit_clause] returns
    the empty string for every select. *)
Theorem precolumns_first_skip_distinct :
  get_select_precolumns select_5_10_distinct = "FIRST 5 SKIP 10 DISTINCT "
  ∧ ∀ select : Select, limit_clause select = "".
Proof. split; [vm_compute; reflexivity | reflexivity]. Qed.

(** ** The boolean processors *)

(** A fetched value other than [None] reads as its truth value. *)
Lemma result_processor_truth (v : Py.value) :
  v ≠ Py.PyNone ->
  FBBoolean.result_processor v = Py.PyBool (Py.truthy v).
Proof.
  intros Hv. destruct v as [|b|n|s|l]; [done|..];
    unfold FBBoolean.result_processor, Py.py_or, Py.py_and.
  - by destruct b.
  - by destruct n.
  - by destruct s.
  - by destruct l.
Qed.

(** C4: the bind processor sends [True] to 1, [False] to 0 and [None]
    to [None]; the result processor sends a truthy value to [True], a
    falsy value other than [None] to [False] and [None] to [None]; so
    what is written as [True], [False] or [None] is read back as
    itself, and 1, 0 and [None] are read as [True], [False], [None]. *)
Theorem boolean_processors (v : Py.value) :
  FBBoolean.bind_processor (Py.PyBool true) = Py.PyInt 1
  ∧ FBBoolean.bind_processor (Py.PyBool false) = Py.PyInt 0
  ∧ FBBoolean.bind_processor Py.PyNone = Py.PyNone
  ∧ (Py.truthy v = true -> FBBoolean.result_processor v = Py.PyBool true)
  ∧ (Py.truthy v = false -> v ≠ Py.PyNone ->
     FBBoolean.result_processor v = Py.PyBool false)
  ∧ FBBoolean.result_processor Py.PyNone = Py.PyNone
  ∧ (v = Py.PyBool true ∨ v = Py.PyBool false ∨ v = Py.PyNone ->
     FBBoolean.result_processor (FBBoolean.bind_processor v) = v).
Proof.
  repeat split; try reflexivity.
  - intros Ht. rewrite result_processor_truth; [by rewrite Ht|].
    by intros ->.
  - intros Ht Hv. by rewrite result_processor_truth, Ht.
  - intros [->|[->| ->]]; reflexivity.
Qed.

Lemma boolean_processors_witness :
  FBBoolean.result_processor (Py.PyInt 1) = Py.PyBool true
  ∧ FBBoolean.result_processor (Py.PyInt 0) = Py.PyBool false
  ∧ FBBoolean.result_processor (FBBoolean.bind_processor (Py.PyBool true))
    = Py.PyBool true.
Proof.
  split; [|split].
  - apply (boolean_processors (Py.PyInt 1)). reflexivity.
  - apply (boolean_processors (Py.PyInt 0)); [reflexivity | discriminate].
  - apply (boolean_processors (Py.PyBool true)). left. reflexivity.
Defined.

(** ** Version detection *)

Lemma tuple_gt_major (major : Z) (rest : list Z) :
  Py.tuple_gt (major :: rest) [2%Z]
  = if (major =? 2)%Z then Py.tuple_gt rest [] else (2 <? major)%Z.
Proof. reflexivity. Qed.

(** C5: after [initialize] on a connection whose server version has
    major component 1, [_version_two] is false and the dialect's type
    names map ["TIMESTAMP"] to [DATE], every other name being mapped as
    in the module's table; with major component 3, [_version_two] is
    true and the dialect's type names are the ones it had. *)
Theorem initialize_detects_version (self : FBDialect) (connection : Connection)
    (rest : list Z) :
  (server_version connection = 1%Z :: rest ->
   _version_two (initialize self connection) = false
   ∧ dialect_ischema_names (initialize self connection) !! "TIMESTAMP"
     = Some DATE
   ∧ ∀ colspec : string, colspec ≠ "TIMESTAMP" ->
       dialect_ischema_names (initialize self connection) !! colspec
       = ischema_names !! colspec)
  ∧ (server_version connection = 3%Z :: rest ->
     _version_two (initialize self connection) = true
     ∧ dialect_ischema_names (initialize self connection)
       = dialect_ischema_names self).
Proof.
  unfold initialize. split; intros ->; rewrite tuple_gt_major; simpl.
  - split; [done|]. split; [apply lookup_insert_eq|].
    intros colspec Hne. by apply lookup_insert_ne.
  - done.
Qed.

Lemma initialize_detects_version_witness :
  (_version_two (initialize FBDialect_new (connection_of_version [1; 5; 6]%Z))
   = false
   ∧ dialect_ischema_names
       (initialize FBDialect_new (connection_of_version [1; 5; 6]%Z))
     !! "TIMESTAMP" = Some DATE)
  ∧ _version_two (initialize FBDialect_new (connection_of_version [3; 0]%Z))
    = true.
Proof.
  split.
  - pose proof (proj1 (initialize_detects_version FBDialect_new
                  (connection_of_version [1; 5; 6]%Z) [5; 6]%Z) eq_refl)
      as (H1 & H2 & _).
    exact (conj H1 H2).
  - exact (proj1 (proj2 (initialize_detects_version FBDialect_new
                    (connection_of_version [3; 0]%Z) [0]%Z) eq_refl)).
Defined.

(** ** RETURNING *)

Section Returning.
Context {ColumnElement Body : Type}.
Implicit Types (self : SQLCompiler ColumnElement Body).

(** The generator yields the columns of each entry, one entry after
    the other. *)
Lemma flatten_columnlist_bind (collist : list (ReturningEntry ColumnElement)) :
  flatten_columnlist collist = collist ≫= entry_columns.
Proof.
  induction collist as [|[c|columns] collist IH]; simpl; [done|..];
    by rewrite IH.
Qed.

Lemma append_returning_clause self (text : string)
    (returning_cols : list (ReturningEntry ColumnElement)) :
  _append_returning self text returning_cols
  = text +:+ returning_clause self returning_cols.
Proof.
  unfold _append_returning, returning_clause.
  by rewrite flatten_columnlist_bind.
Qed.

End Returning.

(** C6: an update, insert or delete that carries a returning list
    compiles to the text of the generic compiler followed by
    [" RETURNING "] and the processed expressions, comma-separated, of
    the list in which each selectable is replaced by its columns; one
    that carries none compiles to the text of the generic compiler. *)
Theorem returning_appended {ColumnElement Body : Type}
    (self : SQLCompiler ColumnElement Body)
    (stmt : Statement ColumnElement Body) :
  (∀ returning_cols : list (ReturningEntry ColumnElement),
     kwargs stmt !! "firebird_returning" = Some returning_cols ->
     visit_update self stmt
     = super_visit_update self stmt +:+ returning_clause self returning_cols
     ∧ visit_insert self stmt
       = super_visit_insert self stmt +:+ returning_clause self returning_cols
     ∧ visit_delete self stmt
       = super_visit_delete self stmt +:+ returning_clause self returning_cols)
  ∧ (kwargs stmt !! "firebird_returning" = None ->
     visit_update self stmt = super_visit_update self stmt
     ∧ visit_insert self stmt = super_visit_insert self stmt
     ∧ visit_delete self stmt = super_visit_delete self stmt).
Proof.
  unfold visit_update, visit_insert, visit_delete.
  split; [intros returning_cols Hk | intros Hk]; rewrite Hk; [|done].
  by rewrite !append_returning_clause.
Qed.

Lemma returning_appended_witness :
  visit_update name_compiler update_returning_id_salary
  = "UPDATE empl SET salary=? WHERE empl.sales > ? RETURNING empl.id, empl.salary"
  ∧ visit_delete name_compiler delete_returning_table
    = "DELETE FROM t RETURNING t.a, t.b, t.c".
Proof.
  split.
  - apply (proj1 (returning_appended name_compiler update_returning_id_salary)
             [Column "empl.id"; Column "empl.salary"]).
    vm_compute. reflexivity.
  - apply (proj1 (returning_appended name_compiler delete_returning_table)
             [Selectable ["t.a"; "t.b"]; Column "t.c"]).
    vm_compute. reflexivity.
Defined.

(** ** Running a reflection *)

Lemma bind_returns {A B : Type} (m : M A) (f : A -> M B) w x w' :
  m w = (inr x, w') -> (m ≫= f) w = f x w'.
Proof. intros Hm. unfold mbind, M_bind. by rewrite Hm. Qed.

Lemma bind_raises {A B : Type} (m : M A) (f : A -> M B) w e w' :
  m w = (inl e, w') -> (m ≫= f) w = (inl e, w').
Proof. intros Hm. unfold mbind, M_bind. by rewrite Hm. Qed.

(** Finding the type of a column never fails; at worst it warns. *)
Lemma reflect_type_returns self name row w :
  ∃ coltype w', reflect_type self name row w = (inr coltype, w').
Proof.
  unfold reflect_type.
  destruct (dialect_ischema_names self !! Py.rstrip (ftype row)) as [cls|].
  - repeat match goal with
           | |- context [if ?b then _ else _] => destruct b
           end; by eexists _, _.
  - by eexists _, _.
Qed.

Lemma reflect_default_None row w :
  fdefault row = None -> reflect_default row w = (inr None, w).
Proof. intros Hd. unfold reflect_default. by rewrite Hd. Qed.

Lemma reflect_default_prefixed row d w :
  fdefault row = Some d ->
  Py.startswith "DEFAULT " (Py.upper d) = true ->
  reflect_default row w = (inr (Some (Py.slice_from 8 d)), w).
Proof. intros Hd Hp. unfold reflect_default. by rewrite Hd, Hp. Qed.

Lemma reflect_default_unprefixed row d w :
  fdefault row = Some d ->
  Py.startswith "DEFAULT " (Py.upper d) = false ->
  reflect_default row w = (inl AssertionError, w).
Proof. intros Hd Hp. unfold reflect_default. by rewrite Hd, Hp. Qed.

Lemma default_well_formed_or_malformed row :
  default_well_formed row ∨ default_malformed row.
Proof.
  unfold default_well_formed, default_malformed.
  destruct (fdefault row) as [d|]; [|by left].
  destruct (Py.startswith "DEFAULT " (Py.upper d)) eqn:Hp.
  - left. by intros ? [= <-].
  - right. by exists d.
Qed.

Lemma reflect_column_returns self connection pkey_cols tablename row w :
  default_well_formed row ->
  ∃ col_d w',
    reflect_column self connection pkey_cols tablename row w = (inr col_d, w')
    ∧ reflects self connection tablename row col_d.
Proof.
  intros Hd. unfold reflect_column.
  destruct (reflect_type_returns self (normalize_name self (fname row)) row w)
    as (coltype & w' & Ht).
  rewrite (bind_returns _ _ _ _ _ Ht).
  assert (reflect_default row w'
          = (inr (Py.slice_from 8 <$> fdefault row), w')) as Hdef.
  { destruct (fdefault row) as [d|] eqn:Hf.
    - by apply reflect_default_prefixed, Hd.
    - by apply reflect_default_None. }
  rewrite (bind_returns _ _ _ _ _ Hdef).
  eexists _, _. split; [reflexivity|].
  repeat split; simpl.
  destruct pkey_cols as [|pk [|]]; [by left| |by left].
  case_bool_decide; [by right | by left].
Qed.

Lemma reflect_column_raises self connection pkey_cols tablename row w :
  default_malformed row ->
  ∃ w',
    reflect_column self connection pkey_cols tablename row w
    = (inl AssertionError, w').
Proof.
  intros (d & Hf & Hp). unfold reflect_column.
  destruct (reflect_type_returns self (normalize_name self (fname row)) row w)
    as (coltype & w' & Ht).
  rewrite (bind_returns _ _ _ _ _ Ht).
  exists w'. apply bind_raises. by apply reflect_default_unprefixed with d.
Qed.

(** The only failure of the loop is the assertion. *)
Lemma reflect_column_raises_or_returns self connection pkey_cols tablename
    row w :
  (∃ w', reflect_column self connection pkey_cols tablename row w
         = (inl AssertionError, w'))
  ∨ (∃ col_d w',
       reflect_column self connection pkey_cols tablename row w
       = (inr col_d, w')).
Proof.
  destruct (default_well_formed_or_malformed row) as [Hd|Hd].
  - right.
    destruct (reflect_column_returns self connection pkey_cols tablename
                row w Hd) as (col_d & w' & H & _).
    by exists col_d, w'.
  - left. by apply reflect_column_raises.
Qed.

Lemma reflect_columns_returns self connection pkey_cols tablename rows :
  Forall default_well_formed rows ->
  ∀ cols w, ∃ cols' w',
    reflect_columns self connection pkey_cols tablename rows cols w
    = (inr (cols ++ cols'), w')
    ∧ Forall2 (reflects self connection tablename) rows cols'.
Proof.
  induction 1 as [|row rows Hrow Hrows IH]; intros cols w; simpl.
  - exists [], w. by rewrite app_nil_r.
  - destruct (reflect_column_returns self connection pkey_cols tablename
                row w Hrow) as (col_d & w1 & Hc & Hr).
    rewrite (bind_returns _ _ _ _ _ Hc).
    destruct (IH (cols ++ [col_d]) w1) as (cols' & w' & Hcs & Hrs).
    exists (col_d :: cols'), w'. rewrite Hcs, <- app_assoc. simpl.
    split; [done|]. by constructor.
Qed.

Lemma reflect_columns_raises self connection pkey_cols tablename rows :
  Exists default_malformed rows ->
  ∀ cols w, ∃ w',
    reflect_columns self connection pkey_cols tablename rows cols w
    = (inl AssertionError, w').
Proof.
  induction rows as [|row rows IH]; intros Hex cols w; simpl.
  - by apply Exists_nil in Hex.
  - destruct (reflect_column_raises_or_returns self connection pkey_cols
                tablename row w) as [(w1 & Hc)|(col_d & w1 & Hc)].
    + exists w1. by apply bind_raises.
    + rewrite (bind_returns _ _ _ _ _ Hc).
      apply Exists_cons in Hex as [Hbad|Hex]; [|by apply IH].
      destruct (reflect_column_raises self connection pkey_cols tablename
                  row w Hbad) as (w2 & Hc2).
      congruence.
Qed.

(** A string whose upper-case form starts with [p] is [p], in some mix
    of cases, followed by the slice that drops as many characters. *)
Lemma startswith_upper_split (p d : string) :
  Py.startswith p (Py.upper d) = true ->
  ∃ q, d = q +:+ Py.slice_from (String.length p) d ∧ Py.upper q = p.
Proof.
  revert d. induction p as [|a p IH]; intros d Hp.
  - by exists "".
  - destruct d as [|b d]; [done|]. simpl in Hp.
    apply andb_true_iff in Hp as [Hab Hp]. apply Ascii.eqb_eq in Hab.
    destruct (IH d Hp) as (q & Hd & Hq).
    exists (String b q). split.
    + change (String b d
              = String b (q +:+ Py.slice_from (String.length p) d)).
      by rewrite <- Hd.
    + simpl. by rewrite Hq, Hab.
Qed.

(** C7, as the claim states it, fails: a default source that starts
    with [default ] in lower case does not begin with the prefix
    ['DEFAULT '], and yet [get_columns] returns, reporting the source
    without its first eight characters. *)
Lemma lowercase_prefix_is_accepted :
  Py.startswith "DEFAULT " "default 0" = false
  ∧ ∃ cols,
      get_columns FBDialect_new connection_lowercase_default (Some "empl") []
      = (inr cols, [])
      ∧ col_default <$> cols = [Some "0"].
Proof. split; [reflexivity|]. eexists. split; vm_compute; reflexivity. Qed.

(** C7, amended: the prefix is looked for in the upper-case form of the
    default source. When every row of the table has a null default
    source or one that starts with [DEFAULT ] in some mix of cases,
    [get_columns] returns a record per row whose default is [None] for
    a null source and the source without its first eight characters
    otherwise; when some row has a default source that does not start
    so, [get_columns] raises [AssertionError]; and the eight characters
    dropped are the prefix, as the catalog spelled it. *)
Theorem get_columns_default_source (self : FBDialect)
    (connection : Connection) (table_name : option string)
    (w : list string) :
  (Forall default_well_formed
     (execute_tblqry connection (denormalize_name self table_name)) ->
   ∃ cols w',
     get_columns self connection table_name w = (inr cols, w')
     ∧ Forall2
         (fun row col_d => col_default col_d = Py.slice_from 8 <$> fdefault row)
         (execute_tblqry connection (denormalize_name self table_name)) cols)
  ∧ (Exists default_malformed
       (execute_tblqry connection (denormalize_name self table_name)) ->
     ∃ w', get_columns self connection table_name w = (inl AssertionError, w'))
  ∧ (∀ d : string, Py.startswith "DEFAULT " (Py.upper d) = true ->
     ∃ q, d = q +:+ Py.slice_from 8 d ∧ Py.upper q = "DEFAULT ").
Proof.
  unfold get_columns. split; [|split].
  - intros Hrows.
    destruct (reflect_columns_returns self connection
                (get_primary_keys self connection table_name)
                (denormalize_name self table_name) _ Hrows [] w)
      as (cols & w' & Hc & Hr).
    exists cols, w'. split; [done|].
    eapply Forall2_impl; [exact Hr|]. by intros row col_d (_ & _ & Hd & _).
  - intros Hrows. by apply reflect_columns_raises.
  - intros d Hd. by apply (startswith_upper_split "DEFAULT " d).
Qed.

Lemma get_columns_default_source_witness :
  (∃ cols w',
     get_columns FBDialect_new connection_defaults (Some "empl") []
     = (inr cols, w')
     ∧ Forall2
         (fun row col_d => col_default col_d = Py.slice_from 8 <$> fdefault row)
         (execute_tblqry connection_defaults
            (denormalize_name FBDialect_new (Some "empl"))) cols)
  ∧ (∃ w',
       get_columns FBDialect_new connection_bad_default (Some "empl") []
       = (inl AssertionError, w')).
Proof.
  split.
  - apply (proj1 (get_columns_default_source FBDialect_new
                    connection_defaults (Some "empl") [])).
    repeat constructor; intros d [= <-]; reflexivity.
  - apply (proj1 (proj2 (get_columns_default_source FBDialect_new
                           connection_bad_default (Some "empl") []))).
    right. left. exists "0". split; reflexivity.
Defined.

(** ** Foreign keys *)

Lemma fks_collect_empty self : fks_collect self [] ∅.
Proof. intros cname. by rewrite lookup_empty. Qed.

Lemma fks_collect_step self rows fks row :
  fks_collect self rows fks ->
  fks_collect self (rows ++ [row]) (fk_step self fks row).
Proof.
  intros Hinv cname. unfold fk_step, rows_of_constraint.
  rewrite filter_app, !fmap_app.
  destruct (decide (normalize_name self (fk_cname row) = cname)) as [<-|Hne].
  - rewrite lookup_insert_eq, filter_cons_True by done. simpl.
    by destruct (Hinv (normalize_name self (fk_cname row))) as [-> ->].
  - rewrite lookup_insert_ne, filter_cons_False by done. simpl.
    rewrite !app_nil_r. apply Hinv.
Qed.

Lemma fks_collect_loop self rows :
  fks_collect self rows (foldl (fk_step self) ∅ rows).
Proof.
  induction rows as [|row rows IH] using rev_ind.
  - apply fks_collect_empty.
  - rewrite foldl_snoc. by apply fks_collect_step.
Qed.

(** * Further properties *)

(** ** Laws of the two name functions *)

Module StripFacts.
Import Py PyFacts.

Lemma space_lower_char c : is_space (lower_char c) = is_space c.
Proof. by_cases_on_byte c. Qed.

Lemma rstrip_lower s : rstrip (lower s) = lower (rstrip s).
Proof.
  induction s as [|c s IH]; simpl; [done|].
  rewrite IH, space_lower_char.
  destruct (rstrip s); simpl; [|done].
  by destruct (is_space c).
Qed.

Lemma rstrip_idempotent s : rstrip (rstrip s) = rstrip s.
Proof.
  induction s as [|c s IH]; simpl; [done|].
  destruct (rstrip s) as [|a r] eqn:Hr.
  - destruct (is_space c) eqn:Hc; simpl; [done|]. by rewrite Hc.
  - change (rstrip (String c (String a r))) with
      (match rstrip (String a r) with
       | EmptyString =>
           if is_space c then EmptyString else String c EmptyString
       | String _ _ as r' => String c r'
       end).
    by rewrite IH.
Qed.

(** White space added at the end of a string is removed with the white
    space the string ends in. *)
Lemma rstrip_app_space s pad : rstrip pad = "" -> rstrip (s +:+ pad) = rstrip s.
Proof.
  intros Hpad. induction s as [|c s IH]; [done|].
  change (rstrip (String c s +:+ pad)) with
    (match rstrip (s +:+ pad) with
     | EmptyString => if is_space c then EmptyString else String c EmptyString
     | String _ _ as r => String c r
     end).
  by rewrite IH.
Qed.

End StripFacts.

Section NameLaws.
Import Py PyFacts SyntaxFacts StripFacts.

Variable self : FBDialect.

Lemma normalize_Some s :
  normalize_name self (Some s)
  = if String.eqb (upper (rstrip s)) (rstrip s)
       && negb (_requires_quotes (identifier_preparer self) (lower (rstrip s)))
    then Some (lower (rstrip s)) else Some (rstrip s).
Proof. unfold normalize_name. by rewrite and_rstrip_Some. Qed.

Lemma normalize_rstrip s :
  normalize_name self (Some (rstrip s)) = normalize_name self (Some s).
Proof. by rewrite !normalize_Some, rstrip_idempotent. Qed.

Lemma normalize_idempotent name :
  normalize_name self (normalize_name self name) = normalize_name self name.
Proof.
  destruct name as [s|]; [|done].
  rewrite <- (normalize_rstrip s).
  assert (Hs : rstrip (rstrip s) = rstrip s) by apply rstrip_idempotent.
  revert Hs. generalize (rstrip s). clear s. intros s Hs.
  rewrite (normalize_stripped self s Hs).
  destruct (String.eqb (upper s) s
            && negb (_requires_quotes (identifier_preparer self) (lower s)))
    eqn:Hc.
  - rewrite (normalize_stripped self (lower s))
      by (by rewrite rstrip_lower, Hs).
    rewrite lower_lower.
    by destruct (String.eqb (upper (lower s)) (lower s)
                 && negb (_requires_quotes (identifier_preparer self) (lower s))).
  - by rewrite (normalize_stripped self s Hs), Hc.
Qed.

Lemma denormalize_idempotent name :
  denormalize_name self (denormalize_name self name)
  = denormalize_name self name.
Proof.
  destruct name as [s|]; [|done]. unfold denormalize_name at 2.
  destruct (String.eqb (lower s) s
            && negb (_requires_quotes (identifier_preparer self) (lower s)))
    eqn:Hc.
  - unfold denormalize_name. rewrite lower_upper.
    apply andb_true_iff in Hc as [Hlow Hq]. apply String.eqb_eq in Hlow.
    rewrite Hq, Hlow, upper_upper, String.eqb_refl. simpl.
    by destruct (String.eqb s (upper s)).
  - unfold denormalize_name. by rewrite Hc.
Qed.

Lemma denormalize_normalize_any_policy s :
  rstrip s = s ->
  denormalize_name self (normalize_name self (Some s))
  = denormalize_name self (Some s).
Proof.
  intros Hs. rewrite (normalize_stripped self s Hs).
  destruct (String.eqb (upper s) s) eqn:Hup; [|done].
  destruct (_requires_quotes (identifier_preparer self) (lower s)) eqn:Hq;
    [done|]. simpl.
  apply String.eqb_eq in Hup. unfold denormalize_name.
  rewrite lower_lower, String.eqb_refl, Hq, upper_lower, Hup. simpl.
  by destruct (String.eqb (lower s) s).
Qed.

Lemma lower_normalize name :
  lower <$> normalize_name self name
  = (fun s => lower (rstrip s)) <$> name.
Proof.
  destruct name as [s|]; [|done]. rewrite normalize_Some.
  destruct (_ && _); simpl; [|done]. by rewrite lower_lower.
Qed.

Lemma lower_denormalize name :
  lower <$> denormalize_name self name = lower <$> name.
Proof.
  destruct name as [s|]; [|done]. unfold denormalize_name.
  destruct (_ && _); simpl; [|done]. by rewrite lower_upper.
Qed.

End NameLaws.

(** X1: for every dialect, whatever its quoting policy, and every name
    or [None], normalizing twice is normalizing once and denormalizing
    twice is denormalizing once. *)
Theorem name_functions_idempotent (self : FBDialect) (name : option string) :
  normalize_name self (normalize_name self name) = normalize_name self name
  ∧ denormalize_name self (denormalize_name self name)
    = denormalize_name self name.
Proof. split; [apply normalize_idempotent | apply denormalize_idempotent]. Qed.

(** X2: for every dialect and every name without trailing white space,
    denormalizing the normalized name gives what denormalizing the name
    itself gives: a name read from the catalog and sent back reaches the
    backend as the name would have. *)
Theorem denormalize_after_normalize (self : FBDialect) (s : string) :
  Py.rstrip s = s ->
  denormalize_name self (normalize_name self (Some s))
  = denormalize_name self (Some s).
Proof. apply denormalize_normalize_any_policy. Qed.

Lemma denormalize_after_normalize_witness :
  denormalize_name FBDialect_new (normalize_name FBDialect_new (Some "Emp_Dept"))
  = denormalize_name FBDialect_new (Some "Emp_Dept")
  ∧ denormalize_name FBDialect_new (normalize_name FBDialect_new (Some "DEPT"))
    = denormalize_name FBDialect_new (Some "DEPT").
Proof.
  split.
  - apply (denormalize_after_normalize FBDialect_new "Emp_Dept"). reflexivity.
  - apply (denormalize_after_normalize FBDialect_new "DEPT"). reflexivity.
Defined.

(** X3: the two functions change the case of letters and nothing else:
    in lower case, a normalized name is the name without its trailing
    white space, and a denormalized name is the name. *)
Theorem name_functions_fold_case_only (self : FBDialect)
    (name : option string) :
  Py.lower <$> normalize_name self name
  = (fun s => Py.lower (Py.rstrip s)) <$> name
  ∧ Py.lower <$> denormalize_name self name = Py.lower <$> name.
Proof. split; [apply lower_normalize | apply lower_denormalize]. Qed.

(** X4: white space after a name, such as the padding of the catalog's
    fixed-width name columns, does not change what the name is
    normalized to. *)
Theorem normalize_ignores_padding (self : FBDialect) (s pad : string) :
  Py.rstrip pad = "" ->
  normalize_name self (Some (s +:+ pad)) = normalize_name self (Some s).
Proof.
  intros Hpad.
  by rewrite !normalize_Some, (StripFacts.rstrip_app_space s pad Hpad).
Qed.

Lemma normalize_ignores_padding_witness :
  normalize_name FBDialect_new (Some ("EMPLOYEE" +:+ "       "))
  = normalize_name FBDialect_new (Some "EMPLOYEE").
Proof.
  apply (normalize_ignores_padding FBDialect_new "EMPLOYEE" "       ").
  reflexivity.
Defined.

(** X5: with the Firebird preparer, a name that requires quoting, a
    reserved word for one, passes both functions unchanged when it has
    no trailing white space. *)
Theorem quoted_names_unchanged (self : FBDialect) (n : string) :
  identifier_preparer self = FBIdentifierPreparer ->
  requires_quotes RESERVED_WORDS n = true ->
  Py.rstrip n = n ->
  normalize_name self (Some n) = Some n
  ∧ denormalize_name self (Some n) = Some n.
Proof.
  intros Hp Hq Hs.
  rewrite (normalize_stripped self n Hs). unfold denormalize_name.
  rewrite Hp, SyntaxFacts.FBIdentifierPreparer_requires_quotes,
    SyntaxFacts.requires_quotes_lower, Hq.
  by rewrite !andb_false_r.
Qed.

Lemma quoted_names_unchanged_witness :
  (normalize_name FBDialect_new (Some "SELECT") = Some "SELECT"
   ∧ denormalize_name FBDialect_new (Some "SELECT") = Some "SELECT")
  ∧ (normalize_name FBDialect_new (Some "order") = Some "order"
     ∧ denormalize_name FBDialect_new (Some "order") = Some "order")
  ∧ (normalize_name FBDialect_new (Some "UNIT PRICE") = Some "UNIT PRICE"
     ∧ denormalize_name FBDialect_new (Some "unit price") = Some "unit price").
Proof.
  split; [|split].
  - apply (quoted_names_unchanged FBDialect_new "SELECT"); reflexivity.
  - apply (quoted_names_unchanged FBDialect_new "order"); reflexivity.
  - split.
    + apply (quoted_names_unchanged FBDialect_new "UNIT PRICE"); reflexivity.
    + apply (quoted_names_unchanged FBDialect_new "unit price"); reflexivity.
Defined.

(** X6: with the Firebird preparer, a lower-case name that does not
    require quoting is denormalized to its upper-case form, and
    normalizing that gives the name back. *)
Theorem lowercase_name_round_trip (self : FBDialect) (n : string) :
  identifier_preparer self = FBIdentifierPreparer ->
  Py.lower n = n ->
  requires_quotes RESERVED_WORDS n = false ->
  denormalize_name self (Some n) = Some (Py.upper n)
  ∧ normalize_name self (denormalize_name self (Some n)) = Some n.
Proof.
  intros Hp Hlow Hq.
  assert (Hd : denormalize_name self (Some n) = Some (Py.upper n)).
  { unfold denormalize_name.
    by rewrite Hlow, String.eqb_refl, Hp,
      SyntaxFacts.FBIdentifierPreparer_requires_quotes, Hq. }
  split; [done|]. rewrite Hd.
  apply SyntaxFacts.requires_quotes_false in Hq as Hq'.
  destruct Hq' as (_ & _ & Hlegal).
  rewrite (normalize_stripped self (Py.upper n))
    by (by rewrite PyFacts.rstrip_upper, (SyntaxFacts.rstrip_legal n Hlegal)).
  rewrite PyFacts.upper_upper, String.eqb_refl, PyFacts.lower_upper, Hlow, Hp,
    SyntaxFacts.FBIdentifierPreparer_requires_quotes, Hq.
  done.
Qed.

Lemma lowercase_name_round_trip_witness :
  denormalize_name FBDialect_new (Some "emp_dept") = Some "EMP_DEPT"
  ∧ normalize_name FBDialect_new (denormalize_name FBDialect_new (Some "emp_dept"))
    = Some "emp_dept".
Proof.
  apply (lowercase_name_round_trip FBDialect_new "emp_dept"); reflexivity.
Defined.

(** ** Writing and reading booleans *)


(** ** The version threshold *)

Lemma initialize_version_two self connection :
  _version_two (initialize self connection)
  = Py.tuple_gt (server_version connection) [2%Z].
Proof. unfold initialize. by destruct (Py.tuple_gt _ _). Qed.

Lemma tuple_gt_nil (a : list Z) : Py.tuple_gt a [] = true <-> a ≠ [].
Proof. by destruct a. Qed.

(** X8: after [initialize], [_version_two] holds exactly when the
    server version is above the tuple [(2,)]: its major component is
    greater than 2, or is 2 and followed by at least one more
    component. A version of [(2,)] alone, or an empty one, gives the
    legacy grammar. The identifier preparer is the one the dialect had. *)
Theorem version_two_threshold (self : FBDialect) (connection : Connection) :
  (_version_two (initialize self connection) = true
   <-> ∃ major rest,
         server_version connection = major :: rest
         ∧ ((2 < major)%Z ∨ (major = 2%Z ∧ rest ≠ [])))
  ∧ identifier_preparer (initialize self connection)
    = identifier_preparer self.
Proof.
  split; [|unfold initialize; by destruct (negb _)].
  rewrite initialize_version_two.
  destruct (server_version connection) as [|major rest].
  - split; [done|]. by intros (? & ? & ? & _).
  - rewrite tuple_gt_major. split.
    + intros H. exists major, rest. split; [done|].
      destruct (major =? 2)%Z eqn:Hm.
      * right. split; [lia|]. by apply tuple_gt_nil.
      * left. lia.
    + intros (major' & rest' & [= <- <-] & [Hgt|[-> Hrest]]).
      * destruct (major =? 2)%Z eqn:Hm; lia.
      * simpl. by apply tuple_gt_nil.
Qed.

(** ** The grammar a server gets *)

(** X9: once [initialize] has seen a server that is not above [(2,)],
    sequences are created and dropped as generators, the length
    function is [strlen], and a [TIMESTAMP] column reflects as [DATE];
    for a server above [(2,)], sequences are created and dropped as
    sequences and the length function is [char_length]. In both
    grammars a length function without arguments compiles to the bare
    function name. *)
Theorem grammar_follows_server_version {ColumnElement Body SequenceElement : Type}
    (compiler : SQLCompiler ColumnElement Body)
    (format_sequence : SequenceElement -> string)
    (self : FBDialect) (connection : Connection)
    (seq : SequenceElement) (function : FunctionElement ColumnElement) :
  (Py.tuple_gt (server_version connection) [2%Z] = false ->
   visit_create_sequence format_sequence (initialize self connection) seq
   = "CREATE GENERATOR " +:+ format_sequence seq
   ∧ visit_drop_sequence format_sequence (initialize self connection) seq
     = "DROP GENERATOR " +:+ format_sequence seq
   ∧ visit_length_func compiler (initialize self connection) function
     = "strlen" +:+ function_argspec compiler function
   ∧ dialect_ischema_names (initialize self connection) !! "TIMESTAMP"
     = Some DATE)
  ∧ (Py.tuple_gt (server_version connection) [2%Z] = true ->
     visit_create_sequence format_sequence (initialize self connection) seq
     = "CREATE SEQUENCE " +:+ format_sequence seq
     ∧ visit_drop_sequence format_sequence (initialize self connection) seq
       = "DROP SEQUENCE " +:+ format_sequence seq
     ∧ visit_length_func compiler (initialize self connection) function
       = "char_length" +:+ function_argspec compiler function)
  ∧ (clauses function = [] -> function_argspec compiler function = "").
Proof.
  unfold visit_create_sequence, visit_drop_sequence, visit_length_func.
  rewrite initialize_version_two.
  split; [|split].
  - intros Hv. rewrite Hv. repeat split.
    unfold initialize. rewrite Hv. simpl. apply lookup_insert_eq.
  - intros Hv. by rewrite Hv.
  - intros Hc. unfold function_argspec. by rewrite Hc.
Qed.

Lemma grammar_follows_server_version_witness :
  visit_create_sequence (fun s : string => s)
    (initialize FBDialect_new (connection_of_version [2]%Z)) "gen_empl_id"
  = "CREATE GENERATOR gen_empl_id"
  ∧ visit_drop_sequence (fun s : string => s)
      (initialize FBDialect_new (connection_of_version [2; 1; 3]%Z))
      "gen_empl_id"
    = "DROP SEQUENCE gen_empl_id"
  ∧ visit_length_func name_compiler
      (initialize FBDialect_new (connection_of_version [1; 5]%Z))
      {| clauses := []; clause_expr := "()" |}
    = "strlen".
Proof.
  split; [|split].
  - apply (proj1 (grammar_follows_server_version name_compiler
                    (fun s : string => s) FBDialect_new
                    (connection_of_version [2]%Z) "gen_empl_id"
                    {| clauses := []; clause_expr := "()" |})).
    reflexivity.
  - apply (proj1 (proj2 (grammar_follows_server_version name_compiler
                    (fun s : string => s) FBDialect_new
                    (connection_of_version [2; 1; 3]%Z) "gen_empl_id"
                    {| clauses := []; clause_expr := "()" |}))).
    reflexivity.
  - pose proof (grammar_follows_server_version name_compiler
                  (fun s : string => s) FBDialect_new
                  (connection_of_version [1; 5]%Z) "gen_empl_id"
                  {| clauses := []; clause_expr := "()" |})
      as (Hlegacy & _ & Hbare).
    destruct (Hlegacy eq_refl) as (_ & _ & Hlen & _).
    rewrite Hlen, (Hbare eq_refl). reflexivity.
Defined.

(** ** SUBSTRING *)

(** X10: [visit_substring_func] raises [IndexError] exactly when the
    function has fewer than two arguments; with two it compiles to
    [SUBSTRING(s FROM start)], with three or more to
    [SUBSTRING(s FROM start FOR length)] over the first three, any
    further argument being ignored. *)
Theorem substring_arguments {ColumnElement Body : Type}
    (self : SQLCompiler ColumnElement Body) (clauses : list ColumnElement) :
  (visit_substring_func self clauses = inl IndexError
   <-> (length clauses < 2)%nat)
  ∧ (∀ c0 c1, clauses = [c0; c1] ->
       visit_substring_func self clauses
       = inr ("SUBSTRING(" +:+ process self c0 +:+ " FROM "
              +:+ process self c1 +:+ ")"))
  ∧ (∀ c0 c1 c2 more, clauses = c0 :: c1 :: c2 :: more ->
       visit_substring_func self clauses
       = inr ("SUBSTRING(" +:+ process self c0 +:+ " FROM "
              +:+ process self c1 +:+ " FOR " +:+ process self c2 +:+ ")")).
Proof.
  split; [|split].
  - destruct clauses as [|c0 [|c1 [|c2 more]]]; simpl; split;
      try done; try lia.
  - by intros c0 c1 ->.
  - by intros c0 c1 c2 more ->.
Qed.

Lemma substring_arguments_witness :
  visit_substring_func name_compiler ["t.name"; "2"]
  = inr "SUBSTRING(t.name FROM 2)"
  ∧ visit_substring_func name_compiler ["t.name"; "2"; "3"; "4"]
    = inr "SUBSTRING(t.name FROM 2 FOR 3)"
  ∧ visit_substring_func name_compiler ["t.name"] = inl IndexError.
Proof.
  split; [|split].
  - apply (proj1 (proj2 (substring_arguments name_compiler ["t.name"; "2"]))
             "t.name" "2").
    reflexivity.
  - apply (proj2 (proj2 (substring_arguments name_compiler
                           ["t.name"; "2"; "3"; "4"]))
             "t.name" "2" "3" ["4"]).
    reflexivity.
  - apply (proj1 (substring_arguments name_compiler ["t.name"])).
    simpl. lia.
Defined.

(** ** Column reflection, row by row *)

Lemma reflect_type_run self row :
  ∃ coltype, ∀ w,
    reflect_type self (normalize_name self (fname row)) row w
    = (inr coltype, w ++ row_warnings self row).
Proof.
  unfold reflect_type, row_warnings, unrecognized_warning.
  destruct (dialect_ischema_names self !! Py.rstrip (ftype row)) as [cls|].
  - repeat match goal with
           | |- context [if ?b then _ else _] => destruct b
           end;
      eexists; intros w; by rewrite app_nil_r.
  - by exists NULLTYPE.
Qed.

Lemma reflect_column_run self connection pkey_cols tablename row :
  default_well_formed row ->
  ∃ col_d,
    column_of_row self connection pkey_cols tablename row col_d
    ∧ ∀ w, reflect_column self connection pkey_cols tablename row w
           = (inr col_d, w ++ row_warnings self row).
Proof.
  intros Hd. destruct (reflect_type_run self row) as [coltype Ht].
  eexists. split; [|intros w; unfold reflect_column].
  2: { rewrite (bind_returns _ _ _ _ _ (Ht w)).
       assert (reflect_default row (w ++ row_warnings self row)
               = (inr (Py.slice_from 8 <$> fdefault row),
                  w ++ row_warnings self row)) as Hdef.
       { destruct (fdefault row) as [d|] eqn:Hf.
         - by apply reflect_default_prefixed, Hd.
         - by apply reflect_default_None. }
       rewrite (bind_returns _ _ _ _ _ Hdef). reflexivity. }
  repeat split; simpl. exact Ht.
Qed.

Lemma reflect_columns_run self connection pkey_cols tablename rows :
  Forall default_well_formed rows ->
  ∃ cols',
    Forall2 (column_of_row self connection pkey_cols tablename) rows cols'
    ∧ ∀ cols w,
        reflect_columns self connection pkey_cols tablename rows cols w
        = (inr (cols ++ cols'), w ++ (rows ≫= row_warnings self)).
Proof.
  induction 1 as [|row rows Hrow Hrows (cols' & Hcols & Hrun)].
  - exists []. split; [constructor|]. intros cols w. simpl.
    by rewrite !app_nil_r.
  - destruct (reflect_column_run self connection pkey_cols tablename row Hrow)
      as (col_d & Hcol & Hc).
    exists (col_d :: cols'). split; [by constructor|].
    intros cols w. simpl.
    rewrite (bind_returns _ _ _ _ _ (Hc w)), Hrun.
    by rewrite <- !app_assoc.
Qed.

Lemma well_formed_or_some_malformed (rows : list ColumnRow) :
  Forall default_well_formed rows ∨ Exists default_malformed rows.
Proof.
  induction rows as [|row rows [IH|IH]].
  - left. constructor.
  - destruct (default_well_formed_or_malformed row) as [H|H].
    + left. by constructor.
    + right. by left.
  - right. by right.
Qed.

(** X11: [get_columns] raises exactly when some row of the table has a
    default source without the prefix, and then it raises
    [AssertionError]; nothing else in a row, an unknown type name
    included, makes it fail. *)
Theorem get_columns_raises_iff (self : FBDialect) (connection : Connection)
    (table_name : option string) (w : list string) :
  (∃ e w', get_columns self connection table_name w = (inl e, w'))
  <-> Exists default_malformed
        (execute_tblqry connection (denormalize_name self table_name)).
Proof.
  unfold get_columns. split.
  - intros (e & w' & Hraise).
    destruct (well_formed_or_some_malformed
                (execute_tblqry connection (denormalize_name self table_name)))
      as [Hwf|Hbad]; [|done].
    destruct (reflect_columns_run self connection
                (get_primary_keys self connection table_name)
                (denormalize_name self table_name) _ Hwf) as (cols' & _ & Hrun).
    rewrite Hrun in Hraise. discriminate.
  - intros Hbad.
    destruct (reflect_columns_raises self connection
                (get_primary_keys self connection table_name)
                (denormalize_name self table_name) _ Hbad [] w) as (w' & Hr).
    by exists AssertionError, w'.
Qed.

Lemma get_columns_run self connection table_name :
  Forall default_well_formed
    (execute_tblqry connection (denormalize_name self table_name)) ->
  ∃ cols,
    Forall2
      (column_of_row self connection
         (get_primary_keys self connection table_name)
         (denormalize_name self table_name))
      (execute_tblqry connection (denormalize_name self table_name)) cols
    ∧ ∀ w, get_columns self connection table_name w
           = (inr cols,
              w ++ (execute_tblqry connection (denormalize_name self table_name)
                      ≫= row_warnings self)).
Proof.
  intros Hwf. unfold get_columns.
  destruct (reflect_columns_run self connection
              (get_primary_keys self connection table_name)
              (denormalize_name self table_name) _ Hwf) as (cols & Hcols & Hrun).
  exists cols. split; [done|]. intros w. by rewrite Hrun.
Qed.

(** ** Sequence linkage *)

(** C9, as the claim states it, fails: when the heuristic query finds
    two candidate generators, [get_column_sequence] does not yield
    [None]; it takes the first, and [get_columns] attaches it. *)
Lemma two_generators_link_the_first :
  execute_genqry connection_two_generators (Some "EMPL") (Some "ID")
  = [Some "GEN_EMPL_ID   "; Some "GEN_AUDIT_ID  "]
  ∧ get_column_sequence FBDialect_new connection_two_generators
      (Some "empl") (Some "id") ≠ None
  ∧ ∃ cols,
      get_columns FBDialect_new connection_two_generators (Some "empl") []
      = (inr cols, [])
      ∧ col_sequence <$> cols = [Some {| seq_name := Some "gen_empl_id" |}].
Proof.
  split; [reflexivity|]. split; [vm_compute; discriminate|].
  eexists. split; vm_compute; reflexivity.
Qed.

(** The generator query [get_columns] issues for a column: the table
    name it passes on is already denormalized, and denormalizing it
    again changes nothing. *)
Lemma get_column_sequence_denormalized self connection table_name column_name :
  get_column_sequence self connection (denormalize_name self table_name)
    column_name
  = get_column_sequence self connection table_name column_name.
Proof. unfold get_column_sequence. by rewrite denormalize_idempotent. Qed.

(** C9, amended: when the heuristic query finds no row,
    [get_column_sequence] yields [None]; when it finds any, one or
    several, it yields the first row's generator, normalized. For a
    table whose default sources are well-formed, [get_columns] returns
    without raising, one record per row; in the record of the column
    that alone is the primary key, there is no sequence entry when the
    query issued for that column finds no row, and the entry is the
    first row's generator, normalized, when it finds any; every other
    record has no sequence entry. *)
Theorem sequence_linkage (self : FBDialect) (connection : Connection)
    (table_name column_name : option string) (w : list string) :
  (execute_genqry connection (denormalize_name self table_name)
     (denormalize_name self column_name) = [] ->
   get_column_sequence self connection table_name column_name = None)
  ∧ (∀ genr rest,
       execute_genqry connection (denormalize_name self table_name)
         (denormalize_name self column_name) = genr :: rest ->
       get_column_sequence self connection table_name column_name
       = Some {| seq_name := normalize_name self genr |})
  ∧ (Forall default_well_formed
       (execute_tblqry connection (denormalize_name self table_name)) ->
     ∃ cols w',
       get_columns self connection table_name w = (inr cols, w')
       ∧ Forall2
           (fun row col_d =>
              col_name col_d = normalize_name self (fname row)
              ∧ (get_primary_keys self connection table_name
                 = [col_name col_d] ->
                 (execute_genqry connection
                    (denormalize_name self table_name)
                    (denormalize_name self (col_name col_d)) = [] ->
                  col_sequence col_d = None)
                 ∧ (∀ genr rest,
                      execute_genqry connection
                        (denormalize_name self table_name)
                        (denormalize_name self (col_name col_d))
                      = genr :: rest ->
                      col_sequence col_d
                      = Some {| seq_name := normalize_name self genr |}))
              ∧ (get_primary_keys self connection table_name
                 ≠ [col_name col_d] ->
                 col_sequence col_d = None))
           (execute_tblqry connection (denormalize_name self table_name))
           cols).
Proof.
  split; [|split].
  - intros Hg. unfold get_column_sequence. by rewrite Hg.
  - intros genr rest Hg. unfold get_column_sequence. by rewrite Hg.
  - intros Hwf.
    destruct (get_columns_run self connection table_name Hwf)
      as (cols & Hcols & Hrun).
    exists cols. eexists. split; [apply Hrun|].
    eapply Forall2_impl; [exact Hcols|].
    intros row col_d (Hname & _ & _ & _ & Hseq).
    split; [done|]. split.
    + intros Hpk. rewrite Hpk in Hseq.
      rewrite bool_decide_eq_true_2 in Hseq by done.
      rewrite get_column_sequence_denormalized in Hseq.
      unfold get_column_sequence in Hseq. split.
      * intros Hg. by rewrite Hg in Hseq.
      * intros genr rest Hg. by rewrite Hg in Hseq.
    + intros Hpk.
      destruct (get_primary_keys self connection table_name) as [|pk [|]];
        [done| |done].
      case_bool_decide as Heq; [|done]. by rewrite Heq in Hpk.
Qed.

Lemma sequence_linkage_witness :
  get_column_sequence FBDialect_new connection_no_generator
    (Some "empl") (Some "id") = None
  ∧ get_column_sequence FBDialect_new connection_two_generators
      (Some "empl") (Some "id")
    = Some {| seq_name := Some "gen_empl_id" |}
  ∧ (∃ cols w',
       get_columns FBDialect_new connection_no_generator (Some "empl") []
       = (inr cols, w')
       ∧ Forall (fun col_d => col_sequence col_d = None) cols)
  ∧ (∃ cols w',
       get_columns FBDialect_new connection_two_generators (Some "empl") []
       = (inr cols, w')
       ∧ Forall
           (fun col_d =>
              col_sequence col_d = Some {| seq_name := Some "gen_empl_id" |})
           cols).
Proof.
  split; [|split; [|split]].
  - apply (proj1 (sequence_linkage FBDialect_new connection_no_generator
                    (Some "empl") (Some "id") [])).
    reflexivity.
  - apply (proj1 (proj2 (sequence_linkage FBDialect_new
                           connection_two_generators
                           (Some "empl") (Some "id") []))
             (Some "GEN_EMPL_ID   ") [Some "GEN_AUDIT_ID  "]).
    reflexivity.
  - destruct (proj2 (proj2 (sequence_linkage FBDialect_new
                              connection_no_generator
                              (Some "empl") (Some "id") [])))
      as (cols & w' & Hrun & Hcols).
    { repeat constructor; intros d [= <-]. }
    exists cols, w'. split; [exact Hrun|].
    apply Forall2_cons_inv_l in Hcols as (col_d & cols' & Hcol & Hnil & ->).
    apply Forall2_nil_inv_l in Hnil as ->.
    destruct Hcol as (Hname & Hpk & _).
    repeat constructor. apply Hpk; [by rewrite Hname|reflexivity].
  - destruct (proj2 (proj2 (sequence_linkage FBDialect_new
                              connection_two_generators
                              (Some "empl") (Some "id") [])))
      as (cols & w' & Hrun & Hcols).
    { repeat constructor; intros d [= <-]. }
    exists cols, w'. split; [exact Hrun|].
    apply Forall2_cons_inv_l in Hcols as (col_d & cols' & Hcol & Hnil & ->).
    apply Forall2_nil_inv_l in Hnil as ->.
    destruct Hcol as (Hname & Hpk & _).
    repeat constructor.
    apply (proj2 (Hpk ltac:(by rewrite Hname))
             (Some "GEN_EMPL_ID   ") [Some "GEN_AUDIT_ID  "]).
    reflexivity.
Defined.

(** X12: when every default source of the table is well-formed,
    [get_columns] returns one record per catalog row, in the order of
    the rows; each record has the normalized name of its row and is
    nullable exactly when the row's null flag is null or zero. *)
Theorem get_columns_one_record_per_row (self : FBDialect)
    (connection : Connection) (table_name : option string)
    (w : list string) :
  Forall default_well_formed
    (execute_tblqry connection (denormalize_name self table_name)) ->
  ∃ cols w',
    get_columns self connection table_name w = (inr cols, w')
    ∧ length cols
      = length (execute_tblqry connection (denormalize_name self table_name))
    ∧ Forall2
        (fun row col_d =>
           col_name col_d = normalize_name self (fname row)
           ∧ (col_nullable col_d = true
              <-> null_flag row = None ∨ null_flag row = Some 0%Z))
        (execute_tblqry connection (denormalize_name self table_name)) cols.
Proof.
  intros Hwf.
  destruct (get_columns_run self connection table_name Hwf)
    as (cols & Hcols & Hrun).
  exists cols. eexists. split; [apply Hrun|].
  split; [symmetry; by eapply Forall2_length|].
  eapply Forall2_impl; [exact Hcols|].
  intros row col_d (Hname & Hnull & _). split; [done|].
  rewrite Hnull. unfold bool_of_flag.
  destruct (null_flag row) as [[|p|p]|]; simpl; split; try done;
    try (by intros [?|?]); auto.
Qed.

Lemma get_columns_one_record_per_row_witness :
  ∃ cols w',
    get_columns FBDialect_new connection_defaults (Some "empl") []
    = (inr cols, w')
    ∧ length cols
      = length (execute_tblqry connection_defaults
                  (denormalize_name FBDialect_new (Some "empl")))
    ∧ Forall2
        (fun row col_d =>
           col_name col_d = normalize_name FBDialect_new (fname row)
           ∧ (col_nullable col_d = true
              <-> null_flag row = None ∨ null_flag row = Some 0%Z))
        (execute_tblqry connection_defaults
           (denormalize_name FBDialect_new (Some "empl"))) cols.
Proof.
  apply (get_columns_one_record_per_row FBDialect_new connection_defaults
           (Some "empl") []).
  repeat constructor; intros d [= <-]; reflexivity.
Defined.

Lemma reflect_type_NULLTYPE self name row w coltype w' :
  reflect_type self name row w = (inr coltype, w') ->
  (coltype = NULLTYPE
   <-> dialect_ischema_names self !! Py.rstrip (ftype row) = None).
Proof.
  unfold reflect_type.
  destruct (dialect_ischema_names self !! Py.rstrip (ftype row)) as [cls|].
  - repeat match goal with
           | |- context [if ?b then _ else _] => destruct b
           end;
      intros [= <- _]; by split.
  - intros [= <- _]. by split.
Qed.

Lemma row_warnings_filter self (rows : list ColumnRow) :
  rows ≫= row_warnings self
  = unrecognized_warning self
      <$> filter (fun row =>
                    dialect_ischema_names self !! Py.rstrip (ftype row) = None)
            rows.
Proof.
  induction rows as [|row rows IH]; [done|].
  rewrite bind_cons, IH. unfold row_warnings at 1.
  destruct (dialect_ischema_names self !! Py.rstrip (ftype row)) eqn:Hl.
  - rewrite filter_cons_False by (by rewrite Hl). done.
  - rewrite filter_cons_True by done. done.
Qed.

(** X13: when every default source of the table is well-formed, a row
    whose type name (without trailing white space) the dialect does not
    know is reported with the placeholder [NULLTYPE], and every other
    row with a type that is not the placeholder; the warnings left
    behind are the earlier ones followed by one "Did not recognize
    type" message per unknown row, in the order of the rows. *)
Theorem get_columns_unknown_types (self : FBDialect)
    (connection : Connection) (table_name : option string)
    (w : list string) :
  Forall default_well_formed
    (execute_tblqry connection (denormalize_name self table_name)) ->
  ∃ cols,
    get_columns self connection table_name w
    = (inr cols,
       w ++ (unrecognized_warning self
               <$> filter
                     (fun row =>
                        dialect_ischema_names self !! Py.rstrip (ftype row)
                        = None)
                     (execute_tblqry connection
                        (denormalize_name self table_name))))
    ∧ Forall2
        (fun row col_d =>
           col_type col_d = NULLTYPE
           <-> dialect_ischema_names self !! Py.rstrip (ftype row) = None)
        (execute_tblqry connection (denormalize_name self table_name)) cols.
Proof.
  intros Hwf.
  destruct (get_columns_run self connection table_name Hwf)
    as (cols & Hcols & Hrun).
  exists cols. split; [by rewrite Hrun, row_warnings_filter|].
  eapply Forall2_impl; [exact Hcols|].
  intros row col_d (_ & _ & _ & Htype & _).
  by eapply reflect_type_NULLTYPE, (Htype []).
Qed.

Lemma get_columns_unknown_types_witness :
  ∃ cols,
    get_columns FBDialect_new connection_unknown_type (Some "empl") []
    = (inr cols, ["Did not recognize type 'GEOMETRY' of column 'shape'"])
    ∧ col_type <$> cols
      = [WithRow BIGINT (column_row "ID" "LONG" None); NULLTYPE].
Proof.
  destruct (get_columns_unknown_types FBDialect_new connection_unknown_type
              (Some "empl") []) as (cols & Hrun & _).
  { repeat constructor; intros d [= <-]. }
  exists cols. split; [exact Hrun|].
  vm_compute in Hrun. by injection Hrun as <-.
Defined.

(** ** The types of a freshly initialized dialect *)

Lemma initialized_ischema_names connection (colspec : string) :
  dialect_ischema_names (initialize FBDialect_new connection) !! colspec
  = if bool_decide (colspec = "TIMESTAMP")
    then Some (if _version_two (initialize FBDialect_new connection)
               then TIMESTAMP else DATE)
    else ischema_names !! colspec.
Proof.
  rewrite initialize_version_two. unfold initialize.
  destruct (Py.tuple_gt (server_version connection) [2%Z]); simpl.
  - case_bool_decide as Hc; [by rewrite Hc|done].
  - case_bool_decide as Hc.
    + rewrite Hc. apply lookup_insert_eq.
    + by rewrite lookup_insert_ne.
Qed.

Lemma ischema_names_lookup :
  ischema_names !! "INT64" = Some NUMERIC
  ∧ ischema_names !! "BLOB" = Some BLOB
  ∧ ischema_names !! "TEXT" = Some TEXT
  ∧ ischema_names !! "VARYING" = Some VARCHAR
  ∧ ischema_names !! "CSTRING" = Some CHAR.
Proof. repeat split; vm_compute; reflexivity. Qed.

(** X14: for the dialect a first connection initializes, and a table
    whose default sources are well-formed, the type of each record
    follows the row's type name: [INT64] gives [NUMERIC] with the row's
    precision and its scale negated; [BLOB] gives [TEXT()] for sub-type
    1 and [BLOB()] otherwise; [TEXT], [VARYING] and [CSTRING] give
    [TEXT], [VARCHAR] and [CHAR] of the row's length; [TIMESTAMP] gives
    [TIMESTAMP] for a server above [(2,)] and [DATE] otherwise. *)
Theorem get_columns_types (connection : Connection)
    (table_name : option string) (w : list string) :
  let self := initialize FBDialect_new connection in
  Forall default_well_formed
    (execute_tblqry connection (denormalize_name self table_name)) ->
  ∃ cols w',
    get_columns self connection table_name w = (inr cols, w')
    ∧ Forall2
        (fun row col_d =>
           (Py.rstrip (ftype row) = "INT64" ->
            col_type col_d
            = WithPrecisionScale NUMERIC (fprec row) (- fscale row))
           ∧ (Py.rstrip (ftype row) = "BLOB" ->
              col_type col_d
              = NoArguments (if bool_decide (stype row = Some 1%Z)
                             then TEXT else BLOB))
           ∧ (Py.rstrip (ftype row) = "TEXT" ->
              col_type col_d = WithLength TEXT (flen row))
           ∧ (Py.rstrip (ftype row) = "VARYING" ->
              col_type col_d = WithLength VARCHAR (flen row))
           ∧ (Py.rstrip (ftype row) = "CSTRING" ->
              col_type col_d = WithLength CHAR (flen row))
           ∧ (Py.rstrip (ftype row) = "TIMESTAMP" ->
              col_type col_d
              = WithRow (if _version_two self then TIMESTAMP else DATE) row))
        (execute_tblqry connection (denormalize_name self table_name)) cols.
Proof.
  intros self Hwf.
  destruct (get_columns_run self connection table_name Hwf)
    as (cols & Hcols & Hrun).
  exists cols. eexists. split; [apply Hrun|].
  eapply Forall2_impl; [exact Hcols|].
  intros row col_d (_ & _ & _ & Htype & _).
  pose proof (initialized_ischema_names connection) as Hl.
  fold self in Hl. clearbody self.
  destruct ischema_names_lookup as (Hint64 & Hblob & Htext & Hvar & Hcstr).
  specialize (Htype []). unfold reflect_type in Htype.
  repeat split; intros Hcolspec; rewrite Hcolspec, Hl in Htype;
    rewrite ?bool_decide_eq_false_2 in Htype by done;
    rewrite ?bool_decide_eq_true_2 in Htype by done;
    rewrite ?Hint64, ?Hblob, ?Htext, ?Hvar, ?Hcstr in Htype;
    cbn [String.eqb Ascii.eqb Bool.eqb orb] in Htype;
    unfold mret, M_ret in Htype.
  - injection Htype as <-. f_equal. lia.
  - by destruct (bool_decide (stype row = Some 1%Z)); injection Htype as <-.
  - by injection Htype as <-.
  - by injection Htype as <-.
  - by injection Htype as <-.
  - by injection Htype as <-.
Qed.

Lemma get_columns_types_witness :
  ∃ cols w',
    get_columns (initialize FBDialect_new connection_legacy_types)
      connection_legacy_types (Some "price_list") [] = (inr cols, w')
    ∧ col_type <$> cols
      = [ WithPrecisionScale NUMERIC (Some 10%Z) 2%Z;
          NoArguments TEXT;
          WithRow DATE (column_row "SEEN" "TIMESTAMP" (Some "DEFAULT 'NOW'")) ].
Proof.
  destruct (get_columns_types connection_legacy_types (Some "price_list") [])
    as (cols & w' & Hrun & _).
  { repeat constructor; intros d [= <-]; reflexivity. }
  exists cols, w'. split; [exact Hrun|].
  vm_compute in Hrun. by injection Hrun as <- _.
Defined.

(** ** Which column gets a sequence *)

(** X15: when every default source of the table is well-formed, a
    record of [get_columns] has a sequence entry only if the table's
    primary key is the one column of that record, and the entry is what
    [get_column_sequence] yields for that column; so a table with no
    primary key, or a key of several columns, gets no sequence entry. *)
Theorem sequence_only_on_single_primary_key (self : FBDialect)
    (connection : Connection) (table_name : option string)
    (w : list string) :
  Forall default_well_formed
    (execute_tblqry connection (denormalize_name self table_name)) ->
  ∃ cols w',
    get_columns self connection table_name w = (inr cols, w')
    ∧ Forall
        (fun col_d =>
           col_sequence col_d ≠ None ->
           get_primary_keys self connection table_name = [col_name col_d]
           ∧ col_sequence col_d
             = get_column_sequence self connection
                 (denormalize_name self table_name) (col_name col_d))
        cols
    ∧ (length (get_primary_keys self connection table_name) ≠ 1%nat ->
       Forall (fun col_d => col_sequence col_d = None) cols).
Proof.
  intros Hwf.
  destruct (get_columns_run self connection table_name Hwf)
    as (cols & Hcols & Hrun).
  exists cols. eexists. split; [apply Hrun|].
  assert (Forall
            (fun col_d =>
               col_sequence col_d
               = match get_primary_keys self connection table_name with
                 | [pk] =>
                     if bool_decide (col_name col_d = pk)
                     then get_column_sequence self connection
                            (denormalize_name self table_name) (col_name col_d)
                     else None
                 | _ => None
                 end) cols) as Hseq.
  { clear Hrun Hwf. induction Hcols as [|row col_d rows cols Hrow _ IH];
      constructor; [|done].
    by destruct Hrow as (_ & _ & _ & _ & Hs). }
  split.
  - eapply Forall_impl; [exact Hseq|]. intros col_d Hs Hne.
    destruct (get_primary_keys self connection table_name) as [|pk [|]];
      [congruence| |congruence].
    case_bool_decide as Hpk; [|congruence]. split; [by rewrite Hpk|done].
  - intros Hlen. eapply Forall_impl; [exact Hseq|]. intros col_d Hs.
    by destruct (get_primary_keys self connection table_name) as [|pk [|]].
Qed.

Lemma sequence_only_on_single_primary_key_witness :
  ∃ cols w',
    get_columns FBDialect_new connection_composite_key (Some "doc") []
    = (inr cols, w')
    ∧ Forall (fun col_d => col_sequence col_d = None) cols.
Proof.
  destruct (sequence_only_on_single_primary_key FBDialect_new
              connection_composite_key (Some "doc") [])
    as (cols & w' & Hrun & _ & Hnone).
  { repeat constructor; intros d [= <-]. }
  exists cols, w'. split; [exact Hrun|]. apply Hnone. simpl. lia.
Defined.

(** ** The records of the foreign keys *)

Lemma fks_headers_empty self : fks_headers self [] ∅.
Proof. intros cname. by rewrite lookup_empty. Qed.

Lemma fks_headers_step self rows fks row :
  fks_headers self rows fks ->
  fks_headers self (rows ++ [row]) (fk_step self fks row).
Proof.
  intros Hinv cname. unfold fk_step, rows_of_constraint.
  rewrite filter_app.
  destruct (decide (normalize_name self (fk_cname row) = cname)) as [<-|Hne].
  - rewrite lookup_insert_eq, (filter_cons_True _ row []) by done.
    rewrite filter_nil. simpl.
    specialize (Hinv (normalize_name self (fk_cname row))).
    unfold rows_of_constraint in Hinv.
    destruct (fks !! normalize_name self (fk_cname row)) as [fk|]; simpl.
    + destruct Hinv as (Hname & Hschema & first & final & Hhd & Hlast & Htable).
      rewrite Hname.
      split; [by destruct (name_unset _)|]. split; [done|].
      exists first, row. rewrite last_snoc. split; [|split; [done|]].
      { destruct (filter _ rows); [done|]. exact Hhd. }
      by destruct (name_unset (normalize_name self (fk_cname row))).
    + rewrite Hinv. simpl. split; [done|]. split; [done|].
      exists row, row. by destruct (name_unset _).
  - rewrite lookup_insert_ne, (filter_cons_False _ row []) by done.
    rewrite filter_nil, app_nil_r. apply Hinv.
Qed.

Lemma fks_headers_loop self rows :
  fks_headers self rows (foldl (fk_step self) ∅ rows).
Proof.
  induction rows as [|row rows IH] using rev_ind.
  - apply fks_headers_empty.
  - rewrite foldl_snoc. by apply fks_headers_step.
Qed.

(** C10: in every record [get_foreign_keys] returns, the constrained
    columns and the referred columns have the same length: they are the
    normalized local and the normalized referenced column names of the
    catalog rows whose normalized constraint name is the record's name,
    all of them, each once, in the order of the query. Every row of the
    query belongs to a record, and no two records share a name, so each
    row adds exactly one name to each list of exactly one record, at
    the same position in both. *)
Theorem foreign_key_columns_paired (self : FBDialect)
    (connection : Connection) (table_name : option string) :
  Forall
    (fun fk =>
       length (constrained_columns fk) = length (referred_columns fk)
       ∧ constrained_columns fk
         = (fun row => normalize_name self (fk_fname row))
             <$> rows_of_constraint self (fk_name fk)
                   (execute_fkqry connection "FOREIGN KEY"
                      (denormalize_name self table_name))
       ∧ referred_columns fk
         = (fun row => normalize_name self (fk_targetfname row))
             <$> rows_of_constraint self (fk_name fk)
                   (execute_fkqry connection "FOREIGN KEY"
                      (denormalize_name self table_name)))
    (get_foreign_keys self connection table_name)
  ∧ (∀ row,
       row ∈ execute_fkqry connection "FOREIGN KEY"
               (denormalize_name self table_name) ->
       ∃ fk,
         fk ∈ get_foreign_keys self connection table_name
         ∧ fk_name fk = normalize_name self (fk_cname row))
  ∧ NoDup (fk_name <$> get_foreign_keys self connection table_name).
Proof.
  unfold get_foreign_keys.
  set (rows := execute_fkqry connection "FOREIGN KEY"
                 (denormalize_name self table_name)).
  pose proof (fks_headers_loop self rows) as Hh.
  pose proof (fks_collect_loop self rows) as Hc.
  set (fks := foldl (fk_step self) ∅ rows) in *.
  split; [|split].
  - apply Forall_forall.
    intros fk ([k fk'] & -> & Hin%elem_of_map_to_list)%list_elem_of_fmap.
    simpl. specialize (Hh k). rewrite Hin in Hh. destruct Hh as (Hname & _).
    destruct (Hc k) as [Hcc Hrc]. rewrite Hin in Hcc, Hrc. simpl in Hcc, Hrc.
    rewrite Hname. split; [|done]. by rewrite Hcc, Hrc, !length_fmap.
  - intros row Hrow. specialize (Hh (normalize_name self (fk_cname row))).
    destruct (fks !! normalize_name self (fk_cname row)) as [fk|] eqn:Hl.
    + exists fk. split; [|apply Hh].
      apply list_elem_of_fmap.
      exists (normalize_name self (fk_cname row), fk).
      split; [done|]. by apply elem_of_map_to_list.
    + exfalso. eapply filter_nil_not_elem_of; [exact Hh| |exact Hrow]. done.
  - assert (fk_name <$> (map_to_list fks).*2 = (map_to_list fks).*1) as ->.
    { rewrite <- list_fmap_compose. apply Forall_fmap_ext, Forall_forall.
      intros [k fk] Hin%elem_of_map_to_list. simpl.
      specialize (Hh k). rewrite Hin in Hh. apply Hh. }
    apply NoDup_fst_map_to_list.
Qed.

(** X16: [get_foreign_keys] returns one record per distinct normalized
    constraint name among the rows of its query: the names of the
    records are pairwise different and are exactly the normalized
    constraint names that occur. Each record has no referred schema, at
    least one column, and the normalized referenced table of the first
    row of its constraint; for a constraint whose name is [None] or
    empty, of the last row. *)
Theorem foreign_key_records (self : FBDialect) (connection : Connection)
    (table_name : option string) :
  NoDup (fk_name <$> get_foreign_keys self connection table_name)
  ∧ (∀ cname : option string,
       cname ∈ fk_name <$> get_foreign_keys self connection table_name
       <-> ∃ row,
             row ∈ execute_fkqry connection "FOREIGN KEY"
                     (denormalize_name self table_name)
             ∧ normalize_name self (fk_cname row) = cname)
  ∧ Forall
      (fun fk =>
         referred_schema fk = None
         ∧ constrained_columns fk ≠ []
         ∧ ∃ first final,
             head (rows_of_constraint self (fk_name fk)
                     (execute_fkqry connection "FOREIGN KEY"
                        (denormalize_name self table_name)))
             = Some first
             ∧ last (rows_of_constraint self (fk_name fk)
                       (execute_fkqry connection "FOREIGN KEY"
                          (denormalize_name self table_name)))
               = Some final
             ∧ referred_table fk
               = normalize_name self
                   (fk_targetrname
                      (if name_unset (fk_name fk) then final else first)))
      (get_foreign_keys self connection table_name).
Proof.
  unfold get_foreign_keys.
  set (rows := execute_fkqry connection "FOREIGN KEY"
                 (denormalize_name self table_name)).
  pose proof (fks_headers_loop self rows) as Hh.
  pose proof (fks_collect_loop self rows) as Hc.
  set (fks := foldl (fk_step self) ∅ rows) in *.
  assert (Hnames : fk_name <$> (map_to_list fks).*2 = (map_to_list fks).*1).
  { rewrite <- list_fmap_compose. apply Forall_fmap_ext, Forall_forall.
    intros [k fk] Hin%elem_of_map_to_list. simpl.
    specialize (Hh k). rewrite Hin in Hh. apply Hh. }
  split; [|split].
  - rewrite Hnames. apply NoDup_fst_map_to_list.
  - intros cname. rewrite Hnames. split.
    + intros ([k fk] & -> & Hin%elem_of_map_to_list)%list_elem_of_fmap.
      simpl. specialize (Hh k). rewrite Hin in Hh.
      destruct Hh as (_ & _ & first & _ & Hhd & _).
      exists first.
      assert (first ∈ rows_of_constraint self k rows) as Hf.
      { destruct (rows_of_constraint self k rows); [done|].
        injection Hhd as ->. left. }
      apply list_elem_of_filter in Hf as [Hk Hf]. done.
    + intros (row & Hin & Hk). specialize (Hh cname).
      destruct (fks !! cname) as [fk|] eqn:Hl.
      * apply list_elem_of_fmap. exists (cname, fk).
        split; [done|]. by apply elem_of_map_to_list.
      * exfalso. eapply filter_nil_not_elem_of; [exact Hh| |exact Hin].
        exact Hk.
  - apply Forall_forall.
    intros fk ([k fk'] & -> & Hin%elem_of_map_to_list)%list_elem_of_fmap.
    simpl. specialize (Hh k). rewrite Hin in Hh.
    destruct Hh as (Hname & Hschema & first & final & Hhd & Hlast & Htable).
    rewrite Hname. split; [done|]. split.
    + destruct (Hc k) as [Hcc _]. rewrite Hin in Hcc. simpl in Hcc.
      rewrite Hcc. by destruct (rows_of_constraint self k rows).
    + by exists first, final.
Qed.

(** ** The records of the indexes *)

Lemma indexes_collect_empty self : indexes_collect self [] ∅.
Proof. intros key. by rewrite lookup_empty. Qed.

Lemma indexes_collect_step self rows indexes row :
  indexes_collect self rows indexes ->
  indexes_collect self (rows ++ [row]) (index_step self indexes row).
Proof.
  intros Hinv key. unfold index_step, rows_of_index.
  rewrite filter_app.
  destruct (decide (index_name row = key)) as [<-|Hne].
  - rewrite lookup_insert_eq, (filter_cons_True _ row []) by done.
    rewrite filter_nil. simpl.
    specialize (Hinv (index_name row)). unfold rows_of_index in Hinv.
    destruct (indexes !! index_name row) as [indexrec|]; simpl.
    + destruct Hinv as (Hname & first & rest & Hrows & Hunique & Hcols).
      split; [done|]. exists first, (rest ++ [row]).
      rewrite Hrows, Hcols. split; [done|]. split; [done|].
      by rewrite !fmap_cons, fmap_app.
    + rewrite Hinv. split; [done|]. by exists row, [].
  - rewrite lookup_insert_ne, (filter_cons_False _ row []) by done.
    rewrite filter_nil, app_nil_r. apply Hinv.
Qed.

Lemma indexes_collect_loop self rows :
  indexes_collect self rows (foldl (index_step self) ∅ rows).
Proof.
  induction rows as [|row rows IH] using rev_ind.
  - apply indexes_collect_empty.
  - rewrite foldl_snoc. by apply indexes_collect_step.
Qed.

(** X17: [get_indexes] returns one record per distinct index name among
    the rows of its query, the names compared as the catalog gives
    them. The record of an index has the normalized index name, the
    normalized field names of the index's rows in the order of the
    query, and the uniqueness flag of the first of these rows. *)
Theorem index_records (self : FBDialect) (connection : Catalog)
    (table_name : option string) :
  ∃ keys : list (option string),
    NoDup keys
    ∧ (∀ key, key ∈ keys
         <-> ∃ row,
               row ∈ execute_index_qry connection
                       (denormalize_name self table_name)
               ∧ index_name row = key)
    ∧ Forall2
        (fun key indexrec =>
           idx_name indexrec = normalize_name self key
           ∧ ∃ first rest,
               rows_of_index key
                 (execute_index_qry connection
                    (denormalize_name self table_name))
               = first :: rest
               ∧ unique indexrec = bool_of_flag (unique_flag first)
               ∧ column_names indexrec
                 = (fun row => normalize_name self (field_name row))
                     <$> first :: rest)
        keys (get_indexes self connection table_name).
Proof.
  unfold get_indexes.
  set (rows := execute_index_qry connection (denormalize_name self table_name)).
  pose proof (indexes_collect_loop self rows) as Hinv.
  set (indexes := foldl (index_step self) ∅ rows) in *.
  exists (map_to_list indexes).*1. split; [apply NoDup_fst_map_to_list|].
  split.
  - intros key. split.
    + intros ([k indexrec] & -> & Hin%elem_of_map_to_list)%list_elem_of_fmap.
      simpl. specialize (Hinv k). rewrite Hin in Hinv.
      destruct Hinv as (_ & first & rest & Hrows & _).
      exists first.
      assert (first ∈ rows_of_index k rows) as Hf by (rewrite Hrows; left).
      by apply list_elem_of_filter in Hf as [Hk Hf].
    + intros (row & Hin & Hk). specialize (Hinv key).
      destruct (indexes !! key) as [indexrec|] eqn:Hl.
      * apply list_elem_of_fmap. exists (key, indexrec).
        split; [done|]. by apply elem_of_map_to_list.
      * exfalso. eapply filter_nil_not_elem_of; [exact Hinv| |exact Hin].
        exact Hk.
  - apply Forall2_fmap, Forall_Forall2_diag, Forall_forall.
    intros [k indexrec] Hin%elem_of_map_to_list. simpl.
    specialize (Hinv k). by rewrite Hin in Hinv.
Qed.

(** ** Names at the boundary *)

(** X18: every reflection operation answers for the denormalized name
    of a table, sequence, view or column what it answers for the name
    itself: the caller may pass a name in either form, and a name that
    is denormalized twice on its way to the backend, as the table name
    in [get_columns] is before the generator query, is sent as if
    denormalized once. *)
Theorem reflection_accepts_denormalized_names (self : FBDialect)
    (connection : Connection) (catalog : Catalog)
    (name column_name : option string) :
  get_primary_keys self connection (denormalize_name self name)
  = get_primary_keys self connection name
  ∧ get_columns self connection (denormalize_name self name)
    = get_columns self connection name
  ∧ get_foreign_keys self connection (denormalize_name self name)
    = get_foreign_keys self connection name
  ∧ get_column_sequence self connection (denormalize_name self name)
      (denormalize_name self column_name)
    = get_column_sequence self connection name column_name
  ∧ has_table self catalog (denormalize_name self name)
    = has_table self catalog name
  ∧ has_sequence self catalog (denormalize_name self name)
    = has_sequence self catalog name
  ∧ get_view_definition self catalog (denormalize_name self name)
    = get_view_definition self catalog name
  ∧ get_indexes self catalog (denormalize_name self name)
    = get_indexes self catalog name.
Proof.
  unfold get_columns, get_primary_keys, get_foreign_keys, get_column_sequence,
    has_table, has_sequence, get_view_definition, get_indexes.
  by rewrite !denormalize_idempotent.
Qed.

Lemma normalize_result_stripped self name r :
  normalize_name self name = Some r -> Py.rstrip r = r.
Proof.
  destruct name as [s|]; [|done]. rewrite normalize_Some.
  destruct (_ && _); intros [= <-].
  - by rewrite StripFacts.rstrip_lower, StripFacts.rstrip_idempotent.
  - apply StripFacts.rstrip_idempotent.
Qed.

(** X19: the names that [get_primary_keys], [table_names],
    [get_table_names] and [get_view_names] return, one per row of the
    query and in its order, are normalized: none ends in white space,
    and normalizing one again leaves it as it is. *)
Theorem reported_names_are_normalized (self : FBDialect)
    (connection : Connection) (catalog : Catalog)
    (table_name : option string) :
  let normalized (names : list (option string)) :=
    Forall
      (fun name =>
         normalize_name self name = name
         ∧ ∀ r, name = Some r -> Py.rstrip r = r)
      names in
  (normalized (get_primary_keys self connection table_name)
   ∧ length (get_primary_keys self connection table_name)
     = length (execute_keyqry connection "PRIMARY KEY"
                 (denormalize_name self table_name)))
  ∧ (normalized (table_names self catalog)
     ∧ length (table_names self catalog)
       = length (execute_relation_names catalog))
  ∧ get_table_names self catalog = table_names self catalog
  ∧ (normalized (get_view_names self catalog)
     ∧ length (get_view_names self catalog)
       = length (execute_view_names catalog)).
Proof.
  assert (∀ rows : list (option string),
            Forall
              (fun name =>
                 normalize_name self name = name
                 ∧ ∀ r, name = Some r -> Py.rstrip r = r)
              (map (normalize_name self) rows)) as Hn.
  { intros rows. apply Forall_forall. intros name Hin.
    apply list_elem_of_In, in_map_iff in Hin as (raw & <- & _).
    split; [apply normalize_idempotent|].
    intros r. apply normalize_result_stripped. }
  unfold get_primary_keys, get_table_names, table_names, get_view_names.
  rewrite !length_map. by repeat split.
Qed.

(** ** Pre-columns at the edges *)

(** X20: a limit or an offset of zero is treated as none at all: the
    fragment [get_select_precolumns] produces for it is the one it
    produces without; and the fragment is empty exactly when the limit
    and the offset are each missing or zero and the select is not
    distinct. *)
Theorem precolumns_zero_and_empty (sel : Select) :
  get_select_precolumns
    {| _limit := Some 0%Z; _offset := _offset sel;
       _distinct := _distinct sel |}
  = get_select_precolumns
      {| _limit := None; _offset := _offset sel;
         _distinct := _distinct sel |}
  ∧ get_select_precolumns
      {| _limit := _limit sel; _offset := Some 0%Z;
         _distinct := _distinct sel |}
    = get_select_precolumns
        {| _limit := _limit sel; _offset := None;
           _distinct := _distinct sel |}
  ∧ (get_select_precolumns sel = ""
     <-> (_limit sel = None ∨ _limit sel = Some 0%Z)
         ∧ (_offset sel = None ∨ _offset sel = Some 0%Z)
         ∧ _distinct sel = false).
Proof.
  split; [reflexivity|]. split; [reflexivity|].
  revert sel. intros [[l|] [o|] d]; unfold get_select_precolumns, add_count;
    cbn [_limit _offset _distinct];
    try destruct (Z.eqb_spec l 0) as [->|Hl];
    try destruct (Z.eqb_spec o 0) as [->|Ho];
    destruct d; cbn [String.append];
    (split; [try discriminate; intros _; repeat split; auto
            | intros ([?|?] & [?|?] & ?); congruence]).
Qed.

(** ** Returning a whole table *)

Lemma flatten_columnlist_app {ColumnElement : Type}
    (l1 l2 : list (ReturningEntry ColumnElement)) :
  flatten_columnlist (l1 ++ l2)
  = flatten_columnlist l1 ++ flatten_columnlist l2.
Proof. by rewrite !flatten_columnlist_bind, bind_app. Qed.

Lemma flatten_columnlist_columns {ColumnElement : Type}
    (cs : list ColumnElement) :
  flatten_columnlist (Column <$> cs) = cs.
Proof. induction cs as [|c cs IH]; [done|]. simpl. f_equal. exact IH. Qed.

(** X21: in a returning list, a selectable stands for its columns
    listed one by one at its place: [_append_returning] produces the
    same text for both lists; a selectable without columns adds
    nothing; and for an empty list the text ends in the bare
    [" RETURNING "]. *)
Theorem returning_selectable_is_its_columns {ColumnElement Body : Type}
    (self : SQLCompiler ColumnElement Body) (text : string)
    (before after : list (ReturningEntry ColumnElement))
    (columns : list ColumnElement) :
  _append_returning self text (before ++ Selectable columns :: after)
  = _append_returning self text (before ++ (Column <$> columns) ++ after)
  ∧ _append_returning self text (before ++ Selectable [] :: after)
    = _append_returning self text (before ++ after)
  ∧ _append_returning self text [] = text +:+ " RETURNING ".
Proof.
  unfold _append_returning. split; [|split; [|done]].
  - by rewrite !flatten_columnlist_app, flatten_columnlist_columns.
  - by rewrite !flatten_columnlist_app.
Qed.
